(** * The packaging script of the MLflow runtime (runtimes/mlflow/setup.py)

    A shallow embedding of [setup.py]: the two path helpers of [os.path] it
    uses, text-mode file reads, the execution of the version file by [exec],
    the two loaders [_load_version] and [_load_description], and the call
    to [setuptools.setup].  Effects (the file table, the open descriptors,
    the calls received by the build subsystem) are threaded through a state
    and exception monad.

    What the model does not follow (source text outside the literal
    assignments it interprets, bytes outside ASCII, whose decoding depends
    on the locale) ends in the outcome [Unmodelled], about which nothing is
    stated.  A second embedding, [Effects], adds the process environment
    and the statements of a version file that read and write it. *)

From Stdlib Require Import ZArith Ascii String.
From stdpp Require Import base option strings list gmap fin_maps.

Open Scope string_scope.

(** ** Characters *)

Module Chars.

Definition LF : ascii := "010"%char.
Definition CR : ascii := "013"%char.
Definition TAB : ascii := "009"%char.
Definition DQUOTE : ascii := "034"%char.
Definition SQUOTE : ascii := "'"%char.
Definition BACKSLASH : ascii := "\"%char.
Definition SLASH : ascii := "/"%char.
Definition HASH : ascii := "#"%char.
Definition EQUALS : ascii := "="%char.

Definition in_range (lo hi : nat) (c : ascii) : bool :=
  let n := nat_of_ascii c in (lo <=? n)%nat && (n <=? hi)%nat.

Definition is_digit (c : ascii) : bool := in_range 48 57 c.
Definition is_lower (c : ascii) : bool := in_range 97 122 c.
Definition is_upper (c : ascii) : bool := in_range 65 90 c.

(** First character of an (ASCII) identifier, and the following ones. *)
Definition is_ident_start (c : ascii) : bool :=
  is_lower c || is_upper c || Ascii.eqb c "_"%char.
Definition is_ident_char (c : ascii) : bool :=
  is_ident_start c || is_digit c.

(** Blanks inside a logical line: space and tab. *)
Definition is_blank (c : ascii) : bool :=
  Ascii.eqb c " "%char || Ascii.eqb c TAB.

(** The characters of a line the interpreter follows: printable ASCII and
    the tab.  (No NUL, which [exec] refuses, no other control character.) *)
Definition is_text_char (c : ascii) : bool :=
  in_range 32 126 c || Ascii.eqb c TAB.

(** A byte that every ASCII-compatible locale encoding decodes to the
    character of the same code. *)
Definition is_ascii (c : ascii) : bool := (nat_of_ascii c <? 128)%nat.

End Chars.
Import Chars.

(** ** Strings *)

Module Str.

Fixpoint forallb (p : ascii → bool) (s : string) : bool :=
  match s with
  | EmptyString => true
  | String c r => p c && forallb p r
  end.

Fixpoint existsb (p : ascii → bool) (s : string) : bool :=
  match s with
  | EmptyString => false
  | String c r => p c || existsb p r
  end.

(** Longest prefix whose characters satisfy [p], and the rest. *)
Fixpoint span (p : ascii → bool) (s : string) : string * string :=
  match s with
  | EmptyString => (EmptyString, EmptyString)
  | String c r =>
      if p c then let '(a, b) := span p r in (String c a, b)
      else (EmptyString, s)
  end.

Fixpoint drop_while (p : ascii → bool) (s : string) : string :=
  match s with
  | EmptyString => EmptyString
  | String c r => if p c then drop_while p r else s
  end.

Definition is_empty (s : string) : bool :=
  match s with EmptyString => true | _ => false end.

Definition starts_with (c : ascii) (s : string) : bool :=
  match s with String d _ => Ascii.eqb c d | EmptyString => false end.

Fixpoint ends_with (c : ascii) (s : string) : bool :=
  match s with
  | EmptyString => false
  | String d EmptyString => Ascii.eqb c d
  | String _ r => ends_with c r
  end.

(** [s.replace(old, new)] for one-character [old] and [new]. *)
Fixpoint replace (old new : ascii) (s : string) : string :=
  match s with
  | EmptyString => EmptyString
  | String c r => String (if Ascii.eqb c old then new else c) (replace old new r)
  end.

(** [s.rstrip(c)]. *)
Fixpoint rstrip (c : ascii) (s : string) : string :=
  match s with
  | EmptyString => EmptyString
  | String d r =>
      let r' := rstrip c r in
      if Ascii.eqb d c && is_empty r' then EmptyString else String d r'
  end.

(** [s[:s.rfind(c) + 1]]: the prefix up to and including the last [c]. *)
Fixpoint through_last (c : ascii) (s : string) : string :=
  match s with
  | EmptyString => EmptyString
  | String d r =>
      if existsb (Ascii.eqb c) s then String d (through_last c r)
      else EmptyString
  end.

End Str.

(** ** [os.path] (posixpath)

    The script runs on a POSIX system, where [os.path] is [posixpath] and
    the separator is the slash. *)

Module Path.

(** [posixpath.dirname]:
<<
    i = p.rfind(sep) + 1
    head = p[:i]
    if head and head != sep*len(head):
        head = head.rstrip(sep)
    return head
>> *)
Definition dirname (p : string) : string :=
  let head := Str.through_last SLASH p in
  if negb (Str.is_empty head) && negb (Str.forallb (Ascii.eqb SLASH) head)
  then Str.rstrip SLASH head
  else head.

(** [posixpath.join] of two components:
<<
    if b.startswith(sep):           path = b
    elif not path or path.endswith(sep): path += b
    else:                           path += sep + b
>> *)
Definition join (a b : string) : string :=
  if Str.starts_with SLASH b then b
  else if Str.is_empty a || Str.ends_with SLASH a then a +:+ b
  else a +:+ String SLASH b.

End Path.

(** ** Python values and exceptions *)

(** The values a literal-assignment script can bind, and the module object
    that [exec] stores under [__builtins__]. *)
Inductive pyval : Type :=
  | PyStr (s : string)
  | PyInt (n : Z)
  | PyBool (b : bool)
  | PyNone
  | PyModule (name : string).

Definition is_str (v : pyval) : bool :=
  match v with PyStr _ => true | _ => false end.

(** The exceptions the script can end with.  [Unmodelled] is not one of
    Python's: it is the outcome of a run that the model does not follow. *)
Inductive exn : Type :=
  | FileNotFoundError (path : string)
  | NotADirectoryError (path : string)
  | IsADirectoryError (path : string)
  | PermissionError (path : string)
  | KeyError (key : string)
  | ValueError (msg : string)
  | UnboundLocalError (variable : string)
  | Unmodelled.

Inductive Res (A : Type) : Type :=
  | Ok (a : A)
  | Raise (e : exn).
Arguments Ok {A} a.
Arguments Raise {A} e.

(** ** Text-mode reading

    [open(path)] opens in mode ['r'] with [newline=None]: on input the
    stream translates every ["\r\n"] and every lone ["\r"] to ["\n"]
    (universal newlines). *)
Fixpoint universal_newlines (s : string) : string :=
  match s with
  | EmptyString => EmptyString
  | String c r =>
      if Ascii.eqb c CR then
        match r with
        | String d r' =>
            if Ascii.eqb d LF then String LF (universal_newlines r')
            else String LF (universal_newlines r)
        | EmptyString => String LF EmptyString
        end
      else String c (universal_newlines r)
  end.

(** ** Executing a version file

    The interpreter follows the scripts made of physical lines that are
    blank, a comment, or one assignment [NAME = LITERAL] with an optional
    trailing comment, where [LITERAL] is a one-line string literal without
    backslash, a decimal integer with an optional minus sign, [True],
    [False] or [None].  Such a script has no effect but its bindings.  Any
    other text is outside the model. *)
Module Py.

Definition keywords : list string :=
  [ "False"; "None"; "True"; "and"; "as"; "assert"; "async"; "await";
    "break"; "class"; "continue"; "def"; "del"; "elif"; "else"; "except";
    "finally"; "for"; "from"; "global"; "if"; "import"; "in"; "is";
    "lambda"; "nonlocal"; "not"; "or"; "pass"; "raise"; "return"; "try";
    "while"; "with"; "yield" ].

(** Names the model does not take as assignment targets: the keywords,
    the names the compiler refuses ([__debug__], and [__peg_parser__] in
    one release), and [__builtins__], whose rebinding is not followed. *)
Definition reserved : list string :=
  keywords ++ [ "__debug__"; "__peg_parser__"; "__builtins__" ].

Definition is_reserved (w : string) : bool :=
  bool_decide (w ∈ reserved).

(** The characters of a text the model follows: those of a line, and the
    line ends. *)
Definition is_source_char (c : ascii) : bool :=
  is_text_char c || Ascii.eqb c LF || Ascii.eqb c CR.

(** Split a text at every line feed. *)
Fixpoint split_lines (s : string) : list string :=
  match s with
  | EmptyString => [EmptyString]
  | String c r =>
      if Ascii.eqb c LF then EmptyString :: split_lines r
      else match split_lines r with
           | l :: ls => String c l :: ls
           | [] => [String c EmptyString]
           end
  end.

Definition skip_blanks (s : string) : string := Str.drop_while is_blank s.

(** Nothing but an optional comment is left on the line. *)
Definition at_line_end (s : string) : bool :=
  match s with
  | EmptyString => true
  | String c _ => Ascii.eqb c HASH
  end.

(** Body of a string literal opened by quote [q]: up to the closing [q];
    a backslash or a line break inside is outside the fragment. *)
Fixpoint scan_string (q : ascii) (s : string) : option (string * string) :=
  match s with
  | EmptyString => None
  | String c r =>
      if Ascii.eqb c q then Some (EmptyString, r)
      else if Ascii.eqb c BACKSLASH || Ascii.eqb c LF || Ascii.eqb c CR then None
      else match scan_string q r with
           | Some (body, rest) => Some (String c body, rest)
           | None => None
           end
  end.

Definition digit_value (c : ascii) : Z := Z.of_nat (nat_of_ascii c) - 48.

Fixpoint decimal_value (acc : Z) (ds : string) : Z :=
  match ds with
  | EmptyString => acc
  | String c r => decimal_value (10 * acc + digit_value c) r
  end.

(** A length of decimal literal that the compiler converts under every
    setting of its limit on integer string conversion (the limit cannot
    be set lower). *)
Definition max_digits : nat := 640.

(** A decimal integer literal has no leading zero unless it is all zeros,
    and stays within the conversion limit. *)
Definition valid_decimal (ds : string) : bool :=
  negb (Str.is_empty ds)
  && (negb (Str.starts_with "0"%char ds) || Str.forallb (Ascii.eqb "0"%char) ds)
  && (String.length ds <=? max_digits)%nat.

Definition parse_decimal (s : string) : option (Z * string) :=
  let '(ds, rest) := Str.span is_digit s in
  if valid_decimal ds then Some (decimal_value 0 ds, rest) else None.

Definition parse_literal (s : string) : option (pyval * string) :=
  match s with
  | EmptyString => None
  | String c r =>
      if Ascii.eqb c DQUOTE || Ascii.eqb c SQUOTE then
        match scan_string c r with
        | Some (body, rest) => Some (PyStr body, rest)
        | None => None
        end
      else if is_digit c then
        match parse_decimal s with
        | Some (n, rest) => Some (PyInt n, rest)
        | None => None
        end
      else if Ascii.eqb c "-"%char then
        match parse_decimal r with
        | Some (n, rest) => Some (PyInt (- n), rest)
        | None => None
        end
      else if is_ident_start c then
        let '(w, rest) := Str.span is_ident_char s in
        if String.eqb w "True" then Some (PyBool true, rest)
        else if String.eqb w "False" then Some (PyBool false, rest)
        else if String.eqb w "None" then Some (PyNone, rest)
        else None
      else None
  end.

(** One physical line: [Some None] for a blank or comment line,
    [Some (Some (name, value))] for an assignment, [None] for anything
    else (which includes an indented statement). *)
Definition parse_line (l : string) : option (option (string * pyval)) :=
  match l with
  | EmptyString => Some None
  | String c _ =>
      if is_blank c then
        if at_line_end (skip_blanks l) then Some None else None
      else if Ascii.eqb c HASH then Some None
      else if is_ident_start c then
        let '(name, rest) := Str.span is_ident_char l in
        if is_reserved name then None
        else match skip_blanks rest with
             | String e rest1 =>
                 if Ascii.eqb e EQUALS then
                   match parse_literal (skip_blanks rest1) with
                   | Some (v, rest2) =>
                       if at_line_end (skip_blanks rest2)
                       then Some (Some (name, v)) else None
                   | None => None
                   end
                 else None
             | EmptyString => None
             end
      else None
  end.

Fixpoint parse_lines (ls : list string) : option (list (string * pyval)) :=
  match ls with
  | [] => Some []
  | l :: ls' =>
      match parse_line l, parse_lines ls' with
      | Some None, Some prog => Some prog
      | Some (Some a), Some prog => Some (a :: prog)
      | _, _ => None
      end
  end.

(** The compiler normalises line ends before it tokenises.  [None]: the
    text is not one the model follows. *)
Definition compile (src : string) : option (list (string * pyval)) :=
  if Str.forallb is_source_char src
  then parse_lines (split_lines (universal_newlines src))
  else None.

(** Run the assignments in order, each storing into the namespace. *)
Fixpoint run (prog : list (string * pyval)) (g : gmap string pyval)
  : gmap string pyval :=
  match prog with
  | [] => g
  | (name, v) :: prog' => run prog' (<[name := v]> g)
  end.

(** [exec(src, globals)]: a reference to the builtins module is stored
    under [__builtins__] unless the key is present, the source is
    compiled, and the statements run with [globals] as their namespace.
    The namespace after the run is the result: the caller's dictionary,
    updated in place. *)
Definition exec (src : string) (globals : gmap string pyval)
  : Res (gmap string pyval) :=
  let g :=
    match globals !! "__builtins__" with
    | Some _ => globals
    | None => <["__builtins__" := PyModule "builtins"]> globals
    end in
  match compile src with
  | Some prog => Ok (run prog g)
  | None => Raise Unmodelled
  end.

(** [d[key]]. *)
Definition subscript (d : gmap string pyval) (key : string) : Res pyval :=
  match d !! key with
  | Some v => Ok v
  | None => Raise (KeyError key)
  end.

End Py.

(** ** The process state and the effect monad *)

(** The keyword arguments of the call to [setuptools.setup]. *)
Record setup_kwargs : Type := SetupKwargs {
  name : string;
  version : pyval;
  url : string;
  author : string;
  author_email : string;
  description : string;
  packages : list string;
  install_requires : list string;
  long_description : string;
  long_description_content_type : string;
  license : string
}.

(** Why the system refuses to open a path name that is not merely absent:
    a component of the path is not a directory, the name is a directory,
    or access is denied. *)
Inductive os_error : Type := ENOTDIR | EISDIR | EACCES.

Definition os_exn (e : os_error) (path : string) : exn :=
  match e with
  | ENOTDIR => NotADirectoryError path
  | EISDIR => IsADirectoryError path
  | EACCES => PermissionError path
  end.

(** [files] and [unopenable] are the system's answer to [open(path)] for
    every path name, taken as the script passes it: a path name in
    [unopenable] is refused for the reason given; any other path name in
    [files] opens the regular file with these bytes; a path name in
    neither is answered "no such file or directory".
    [open_files]: the open descriptors, each with the bytes not yet read.
    [registered]: the calls the build subsystem has received, oldest
    first. *)
Record World : Type := MkWorld {
  files : gmap string string;
  unopenable : gmap string os_error;
  open_files : gmap nat string;
  registered : list setup_kwargs
}.

Definition set_open_files (o : gmap nat string) (w : World) : World :=
  MkWorld (files w) (unopenable w) o (registered w).

Definition set_registered (r : list setup_kwargs) (w : World) : World :=
  MkWorld (files w) (unopenable w) (open_files w) r.

Definition M (A : Type) : Type := World → Res A * World.

#[export] Instance M_ret : MRet M := λ A a w, (Ok a, w).

#[export] Instance M_bind : MBind M := λ A B f m w,
  match m w with
  | (Ok a, w') => f a w'
  | (Raise e, w') => (Raise e, w')
  end.

(** A pure computation that may raise. *)
Definition lift {A} (r : Res A) : M A := λ w, (r, w).

Definition gets {A} (f : World → A) : M A := λ w, (Ok (f w), w).

Module IO.

(** [with open(path) as fp: body]: a path that the system refuses or that
    names no file raises before the body runs; otherwise a descriptor not
    in use is bound to the file's bytes, the body runs, and the descriptor
    is closed whether the body returned or raised (the exception, if any,
    is raised again). *)
Definition with_open {A} (path : string) (body : nat → M A) : M A := λ w,
  match unopenable w !! path with
  | Some e => (Raise (os_exn e path), w)
  | None =>
      match files w !! path with
      | None => (Raise (FileNotFoundError path), w)
      | Some bytes =>
          let fp := fresh (dom (open_files w)) in
          let '(r, w') :=
            body fp (set_open_files (<[fp := bytes]> (open_files w)) w) in
          (r, set_open_files (delete fp (open_files w')) w')
      end
  end.

(** [fp.read()]: everything not yet read, decoded and with its line ends
    translated; the stream is then at its end.  ASCII bytes decode to
    themselves; what other bytes decode to, or whether they do, depends on
    the locale and is not followed. *)
Definition read (fp : nat) : M string := λ w,
  match open_files w !! fp with
  | Some bytes =>
      if Str.forallb is_ascii bytes
      then (Ok (universal_newlines bytes),
            set_open_files (<[fp := EmptyString]> (open_files w)) w)
      else (Raise Unmodelled, w)
  | None => (Raise (ValueError "I/O operation on closed file."), w)
  end.

End IO.

(** [setuptools.setup] with keyword arguments [kw]: the build subsystem
    receives the call. *)
Definition setup (kw : setup_kwargs) : M unit := λ w,
  (Ok tt, set_registered (registered w ++ [kw]) w).

(** ** The script *)

(** *** Local variables

    The body of [_load_version] assigns its local [version] twice and
    reads it once.  Its statements run on a frame that holds the variable:
    unbound at first, then the value last assigned. *)
Record locals : Type := Locals { var_version : option pyval }.

Definition F (A : Type) : Type := locals → M (A * locals).

#[export] Instance F_ret : MRet F := λ A a l, mret (a, l).

#[export] Instance F_bind : MBind F := λ A B f m l,
  m l ≫= (λ '(a, l'), f a l').

(** A statement that uses no local variable. *)
Definition stmt_of {A} (m : M A) : F A := λ l, m ≫= (λ a, mret (a, l)).

(** [version = v]. *)
Definition assign_version (v : pyval) : F unit := λ _,
  mret (tt, Locals (Some v)).

(** The value of the expression [version]. *)
Definition read_version : F pyval := λ l,
  match var_version l with
  | Some v => mret (v, l)
  | None => lift (Raise (UnboundLocalError "version"))
  end.

(** [with open(path) as fp: body], the body being statements of the
    function. *)
Definition with_open_in_body {A} (path : string) (body : nat → F A) : F A :=
  λ l, IO.with_open path (λ fp, body fp l).

(** Calling a function body: a fresh frame, the returned value. *)
Definition call {A} (body : F A) : M A :=
  body (Locals None) ≫= (λ '(a, _), mret a).

Section Script.

(** The path of the script, as the interpreter binds it to [__file__]. *)
Variable __file__ : string.

(** [setuptools.find_packages()], an external collaborator: the packages
    it discovers depend on the directory tree only. *)
Variable find_packages : gmap string string → list string.

Definition ROOT_PATH : string := Path.dirname __file__.
Definition PKG_NAME : string := "mlserver-mlflow".
Definition PKG_PATH : string :=
  Path.join ROOT_PATH (Str.replace "-" "_" PKG_NAME).

(** [_load_version], with the value of the first assignment to the local
    [version] as a parameter. *)
Definition _load_version_from (version0 : pyval) : M pyval :=
  call (
    _ ← assign_version version0;
    let version_path := Path.join PKG_PATH "version.py" in
    _ ← with_open_in_body version_path (λ fp,
      let version_module : gmap string pyval := ∅ in
      src ← stmt_of (IO.read fp);
      version_module ← stmt_of (lift (Py.exec src version_module));
      v ← stmt_of (lift (Py.subscript version_module "__version__"));
      assign_version v);
    read_version).

Definition _load_version : M pyval := _load_version_from (PyStr "").

Definition _load_description : M string :=
  let readme_path := Path.join ROOT_PATH "README.md" in
  IO.with_open readme_path (λ fp, IO.read fp).

(** The keyword arguments are evaluated left to right, then [setup] is
    called. *)
Definition declaration : M setup_kwargs :=
  version ← _load_version;
  packages ← gets (λ w, find_packages (files w));
  long_description ← _load_description;
  mret {|
    name := PKG_NAME;
    version := version;
    url := "https://github.com/SeldonIO/MLServer.git";
    author := "Seldon Technologies Ltd.";
    author_email := "hello@seldon.io";
    description := "MLflow runtime for MLServer";
    packages := packages;
    install_requires := ["mlserver"; "mlflow"];
    long_description := long_description;
    long_description_content_type := "text/markdown";
    license := "Apache 2.0"
  |}.

Definition setup_py : M unit :=
  kw ← declaration;
  setup kw.

End Script.

(** ** Notions used by the statements *)

(** The two paths the script opens. *)
Definition version_path (__file__ : string) : string :=
  Path.join (PKG_PATH __file__) "version.py".

Definition readme_path (__file__ : string) : string :=
  Path.join (ROOT_PATH __file__) "README.md".

(** A stored text is a well-formed version file that binds [__version__]
    to [v]: executed in an empty mapping it runs to the end and leaves [v]
    under that key. *)
Definition binds_version (text : string) (v : pyval) : Prop :=
  ∃ m, Py.exec text ∅ = Ok m ∧ m !! "__version__" = Some v.

Definition has_cr (s : string) : bool := Str.existsb (Ascii.eqb CR) s.
Definition has_lf (s : string) : bool := Str.existsb (Ascii.eqb LF) s.

(** *** Version files, by their syntax *)

Inductive quote : Type := Double | Single.

Definition quote_char (q : quote) : ascii :=
  match q with Double => DQUOTE | Single => SQUOTE end.

(** A literal as written: a string between two quotes of one kind, a
    decimal integer given by its digits (most significant first) with an
    optional minus sign, a truth value, or [None]. *)
Inductive literal : Type :=
  | LitStr (q : quote) (body : string)
  | LitInt (negative : bool) (digits : list nat)
  | LitBool (b : bool)
  | LitNone.

(** A line as written: [NAME = LITERAL], a comment, or nothing. *)
Inductive line : Type :=
  | Assign (target : string) (value : literal)
  | Comment (body : string)
  | Blank.

(** How lines are terminated in the stored file. *)
Inductive newline : Type := Unix | Dos.

Definition newline_text (n : newline) : string :=
  match n with
  | Unix => String LF EmptyString
  | Dos => String CR (String LF EmptyString)
  end.

Definition digit_char (d : nat) : ascii := ascii_of_nat (48 + d).

Fixpoint render_digits (ds : list nat) : string :=
  match ds with
  | [] => EmptyString
  | d :: ds' => String (digit_char d) (render_digits ds')
  end.

Definition digits_value (ds : list nat) : Z :=
  fold_left (λ acc d, 10 * acc + Z.of_nat d)%Z ds 0%Z.

Definition render_literal (l : literal) : string :=
  match l with
  | LitStr q body =>
      String (quote_char q) (body +:+ String (quote_char q) EmptyString)
  | LitInt negative ds =>
      (if negative then "-" else "") +:+ render_digits ds
  | LitBool true => "True"
  | LitBool false => "False"
  | LitNone => "None"
  end.

(** The value a literal denotes. *)
Definition literal_value (l : literal) : pyval :=
  match l with
  | LitStr _ body => PyStr body
  | LitInt negative ds =>
      PyInt (if negative then - digits_value ds else digits_value ds)
  | LitBool b => PyBool b
  | LitNone => PyNone
  end.

Definition render_line (l : line) : string :=
  match l with
  | Assign target value => target +:+ " = " +:+ render_literal value
  | Comment body => String HASH body
  | Blank => EmptyString
  end.

(** The stored text: the lines, one terminator between two of them.  (A
    file that ends with a terminator has [Blank] as its last line.) *)
Fixpoint unlines (n : newline) (ls : list line) : string :=
  match ls with
  | [] => EmptyString
  | [l] => render_line l
  | l :: ls' => render_line l +:+ newline_text n +:+ unlines n ls'
  end.

(** A string body holds characters of a line other than its own quote and
    the backslash. *)
Definition body_char (q : quote) (c : ascii) : bool :=
  is_text_char c && negb (Ascii.eqb c (quote_char q))
  && negb (Ascii.eqb c BACKSLASH).

Definition wf_digits (ds : list nat) : bool :=
  match ds with
  | [] => false
  | d :: ds' =>
      forallb (λ d, d <? 10)%nat ds
      && (negb (d =? 0)%nat || forallb (λ d, d =? 0)%nat ds')
      && (length ds <=? Py.max_digits)%nat
  end.

Definition wf_literal (l : literal) : bool :=
  match l with
  | LitStr q body => Str.forallb (body_char q) body
  | LitInt _ ds => wf_digits ds
  | LitBool _ | LitNone => true
  end.

(** An assignment target: an ASCII identifier that is not reserved. *)
Definition wf_target (s : string) : bool :=
  match s with
  | EmptyString => false
  | String c _ =>
      is_ident_start c && Str.forallb is_ident_char s
      && negb (Py.is_reserved s)
  end.

Definition wf_line (l : line) : bool :=
  match l with
  | Assign target value => wf_target target && wf_literal value
  | Comment body => Str.forallb is_text_char body
  | Blank => true
  end.

(** The assignments of a file, in order. *)
Fixpoint bindings (ls : list line) : list (string * pyval) :=
  match ls with
  | [] => []
  | Assign target value :: ls' => (target, literal_value value) :: bindings ls'
  | _ :: ls' => bindings ls'
  end.

Definition assigns (x : string) (l : line) : bool :=
  match l with
  | Assign target _ => String.eqb target x
  | _ => false
  end.

(** *** Outcomes as functions of the file table *)

(** What [open] and [read] make of a path: the system's refusal, the
    absence of the file, undecoded bytes, or the text. *)
Definition read_outcome (path : string) (blocked : option os_error)
    (entry : option string) : Res string :=
  match blocked with
  | Some e => Raise (os_exn e path)
  | None =>
      match entry with
      | None => Raise (FileNotFoundError path)
      | Some bytes =>
          if Str.forallb is_ascii bytes then Ok (universal_newlines bytes)
          else Raise Unmodelled
      end
  end.

(** What [_load_version] computes from the text it read: execution starts
    from the empty mapping. *)
Definition version_of_text (text : string) : Res pyval :=
  match Py.exec text ∅ with
  | Ok m => Py.subscript m "__version__"
  | Raise e => Raise e
  end.

Definition version_outcome (path : string) (blocked : option os_error)
    (entry : option string) : Res pyval :=
  match read_outcome path blocked entry with
  | Ok text => version_of_text text
  | Raise e => Raise e
  end.

(** The next character, if any, does not satisfy [p]. *)
Definition stops (p : ascii → bool) (s : string) : bool :=
  match s with
  | EmptyString => true
  | String c _ => negb (p c)
  end.

(** The names a compiled script assigns. *)
Definition targets (prog : list (string * pyval)) : list string := prog.*1.

(** No line of [ls] assigns [x]. *)
Definition unassigned (x : string) (ls : list line) : bool :=
  forallb (λ l, negb (assigns x l)) ls.

(** *** Example file tables *)

(** The line [__version__ = "X"]. *)
Definition version_line (X : string) : string :=
  "__version__ = " +:+ String DQUOTE (X +:+ String DQUOTE EmptyString).

(** The file table of the worked example of the spec (root [/pkg]). *)
Definition example_files : gmap string string :=
  <["/pkg/mlserver_mlflow/version.py" := version_line "1.2.3"]>
    (<["/pkg/README.md" := "Hello"]> ∅).

Definition example_world : World := MkWorld example_files ∅ ∅ [].

(** A root with no file at all. *)
Definition empty_world : World := MkWorld ∅ ∅ ∅ [].

(** A root where [mlserver_mlflow] is a regular file, so that the path of
    the version file leads through a file. *)
Definition package_is_file_world : World :=
  MkWorld (<["/pkg/mlserver_mlflow" := "not a directory"]> ∅)
          (<["/pkg/mlserver_mlflow/version.py" := ENOTDIR]> ∅) ∅ [].

(** A version file with Windows line ends, a comment and single quotes. *)
Definition dos_version_lines : list line :=
  [ Comment " generated"; Assign "__version__" (LitStr Single "1.2.3rc1");
    Blank ].

Definition dos_version_world : World :=
  MkWorld (<["/pkg/mlserver_mlflow/version.py" := unlines Dos dos_version_lines]> ∅)
          ∅ ∅ [].

(** A version file that assigns other names only. *)
Definition other_names_lines : list line :=
  [ Assign "version" (LitStr Double "1.2.3"); Assign "build" (LitInt false [4; 2]%nat);
    Blank ].

Definition no_version_world : World :=
  MkWorld (<["/pkg/mlserver_mlflow/version.py" := unlines Unix other_names_lines]> ∅)
          ∅ ∅ [].

(** A version file that binds a negative integer. *)
Definition int_version_lines : list line :=
  [ Assign "__version__" (LitInt true [7]%nat); Blank ].

Definition int_version_world : World :=
  MkWorld (<["/pkg/mlserver_mlflow/version.py" := unlines Unix int_version_lines]> ∅)
          ∅ ∅ [].

(** A README with Windows line ends. *)
Definition crlf_readme : string :=
  "a" +:+ String CR (String LF "b").

Definition crlf_world : World :=
  MkWorld (<["/pkg/README.md" := crlf_readme]> ∅) ∅ ∅ [].

(** The example root seen by a process that has other files, an open
    descriptor and an earlier registration. *)
Definition busy_world : World :=
  MkWorld (<["/tmp/notes.txt" := "scratch"]> example_files) ∅
          (<[0%nat := "pending"]> ∅)
          [SetupKwargs "other" PyNone "" "" "" "" [] [] "" "" ""].

(** A version file present, the README absent. *)
Definition no_readme_world : World :=
  MkWorld (<["/pkg/mlserver_mlflow/version.py" := version_line "1.2.3"]> ∅)
          ∅ ∅ [].

(** The version file of [dos_version_world] with Unix line ends. *)
Definition unix_version_world : World :=
  MkWorld (<["/pkg/mlserver_mlflow/version.py" := unlines Unix dos_version_lines]> ∅)
          ∅ ∅ [].

(** ** The script in a process with an environment

    [exec] runs whatever the version file holds.  To state what that
    allows, this second embedding follows, besides the literal
    assignments, three statements that touch state outside the file
    table: [import os], the assignment of [os.environ['KEY']] to a name,
    and the assignment of a string literal to [os.environ['KEY']].  The
    process state is extended by the environment. *)
Module Effects.

Record EWorld : Type := MkEWorld {
  base : World;
  environ : gmap string string
}.

Definition ME (A : Type) : Type := EWorld → Res A * EWorld.

#[export] Instance ME_ret : MRet ME := λ A a w, (Ok a, w).

#[export] Instance ME_bind : MBind ME := λ A B f m w,
  match m w with
  | (Ok a, w') => f a w'
  | (Raise e, w') => (Raise e, w')
  end.

(** An action of the script that does not touch the environment. *)
Definition lift_base {A} (m : M A) : ME A := λ ew,
  let '(r, w') := m (base ew) in (r, MkEWorld w' (environ ew)).

Inductive expr : Type :=
  | ELit (v : pyval)
  | EEnviron (key : string).

Inductive stmt : Type :=
  | SAssign (target : string) (e : expr)
  | SImportOs
  | SSetEnviron (key value : string).

Fixpoint strip_prefix (p s : string) : option string :=
  match p, s with
  | EmptyString, _ => Some s
  | String a p', String b s' =>
      if Ascii.eqb a b then strip_prefix p' s' else None
  | _, EmptyString => None
  end.

(** [os.environ[KEY]] with [KEY] a string literal; the rest of the line. *)
Definition parse_environ_ref (s : string) : option (string * string) :=
  match strip_prefix "os.environ[" s with
  | Some s1 =>
      match Py.parse_literal s1 with
      | Some (PyStr key, String c rest) =>
          if Ascii.eqb c "]"%char then Some (key, rest) else None
      | _ => None
      end
  | None => None
  end.

(** The names of environment variables the model sets: letters, digits
    and underscores. *)
Definition wf_env_key (k : string) : bool :=
  negb (Str.is_empty k) && Str.forallb is_ident_char k.

(** The statements beyond the literal assignments, tried on a line that
    is not one. *)
Definition parse_statement (l : string) : option stmt :=
  let '(w, rest) := Str.span is_ident_char l in
  if String.eqb w "import" then
    let '(m, rest2) := Str.span is_ident_char (Py.skip_blanks rest) in
    if Str.existsb is_blank (String.substring 0 1 rest)
       && String.eqb m "os" && Py.at_line_end (Py.skip_blanks rest2)
    then Some SImportOs else None
  else if String.eqb w "os" then
    match parse_environ_ref l with
    | Some (key, rest1) =>
        match Py.skip_blanks rest1 with
        | String e rest2 =>
            if Ascii.eqb e EQUALS then
              match Py.parse_literal (Py.skip_blanks rest2) with
              | Some (PyStr value, rest3) =>
                  if Py.at_line_end (Py.skip_blanks rest3) && wf_env_key key
                  then Some (SSetEnviron key value) else None
              | _ => None
              end
            else None
        | EmptyString => None
        end
    | None => None
    end
  else if Py.is_reserved w || Str.is_empty w then None
  else
    match Py.skip_blanks rest with
    | String e rest1 =>
        if Ascii.eqb e EQUALS then
          match parse_environ_ref (Py.skip_blanks rest1) with
          | Some (key, rest2) =>
              if Py.at_line_end (Py.skip_blanks rest2)
              then Some (SAssign w (EEnviron key)) else None
          | None => None
          end
        else None
    | EmptyString => None
    end.

Definition parse_line (l : string) : option (option stmt) :=
  match Py.parse_line l with
  | Some None => Some None
  | Some (Some (target, v)) => Some (Some (SAssign target (ELit v)))
  | None =>
      match parse_statement l with
      | Some s => Some (Some s)
      | None => None
      end
  end.

Fixpoint parse_lines (ls : list string) : option (list stmt) :=
  match ls with
  | [] => Some []
  | l :: ls' =>
      match parse_line l, parse_lines ls' with
      | Some None, Some prog => Some prog
      | Some (Some s), Some prog => Some (s :: prog)
      | _, _ => None
      end
  end.

Definition compile (src : string) : option (list stmt) :=
  if Str.forallb Py.is_source_char src
  then parse_lines (Py.split_lines (universal_newlines src))
  else None.

(** [os] names the module that [import os] bound. *)
Definition os_bound (ns : gmap string pyval) : bool :=
  match ns !! "os" with
  | Some (PyModule m) => String.eqb m "os"
  | _ => false
  end.

(** Run the statements in order.  A statement that raises ends the run;
    what the earlier ones stored in the environment stays. *)
Fixpoint run (prog : list stmt) (ns : gmap string pyval)
    (env : gmap string string) : Res (gmap string pyval) * gmap string string :=
  match prog with
  | [] => (Ok ns, env)
  | SAssign target (ELit v) :: prog' => run prog' (<[target := v]> ns) env
  | SAssign target (EEnviron key) :: prog' =>
      if os_bound ns then
        match env !! key with
        | Some value => run prog' (<[target := PyStr value]> ns) env
        | None => (Raise (KeyError key), env)
        end
      else (Raise Unmodelled, env)
  | SImportOs :: prog' => run prog' (<["os" := PyModule "os"]> ns) env
  | SSetEnviron key value :: prog' =>
      if os_bound ns then run prog' ns (<[key := value]> env)
      else (Raise Unmodelled, env)
  end.

Definition exec (src : string) (globals : gmap string pyval)
  : ME (gmap string pyval) := λ ew,
  let g :=
    match globals !! "__builtins__" with
    | Some _ => globals
    | None => <["__builtins__" := PyModule "builtins"]> globals
    end in
  match compile src with
  | Some prog =>
      let '(r, env') := run prog g (environ ew) in
      (r, MkEWorld (base ew) env')
  | None => (Raise Unmodelled, ew)
  end.

Definition with_open {A} (path : string) (body : nat → ME A) : ME A := λ ew,
  let w := base ew in
  match unopenable w !! path with
  | Some e => (Raise (os_exn e path), ew)
  | None =>
      match files w !! path with
      | None => (Raise (FileNotFoundError path), ew)
      | Some bytes =>
          let fp := fresh (dom (open_files w)) in
          let '(r, ew') :=
            body fp (MkEWorld
                       (set_open_files (<[fp := bytes]> (open_files w)) w)
                       (environ ew)) in
          (r, MkEWorld
                (set_open_files (delete fp (open_files (base ew'))) (base ew'))
                (environ ew'))
      end
  end.

Section Script.

Variable __file__ : string.
Variable find_packages : gmap string string → list string.

Definition _load_version : ME pyval :=
  let version := PyStr "" in
  let version_path := Path.join (PKG_PATH __file__) "version.py" in
  version ← with_open version_path (λ fp,
    let version_module : gmap string pyval := ∅ in
    src ← lift_base (IO.read fp);
    version_module ← exec src version_module;
    version ← lift_base (lift (Py.subscript version_module "__version__"));
    mret version);
  mret version.

Definition _load_description : ME string :=
  lift_base (_load_description __file__).

Definition declaration : ME setup_kwargs :=
  version ← _load_version;
  packages ← lift_base (gets (λ w, find_packages (files w)));
  long_description ← _load_description;
  mret {|
    name := PKG_NAME;
    version := version;
    url := "https://github.com/SeldonIO/MLServer.git";
    author := "Seldon Technologies Ltd.";
    author_email := "hello@seldon.io";
    description := "MLflow runtime for MLServer";
    packages := packages;
    install_requires := ["mlserver"; "mlflow"];
    long_description := long_description;
    long_description_content_type := "text/markdown";
    license := "Apache 2.0"
  |}.

End Script.

End Effects.

(** *** Notions and examples for the process with an environment *)

(** What [Effects._load_version] makes of the version file's entry and the
    environment: the outcome, and the environment afterwards. *)
Definition version_run (path : string) (blocked : option os_error)
    (entry : option string) (env : gmap string string)
  : Res pyval * gmap string string :=
  match read_outcome path blocked entry with
  | Raise e => (Raise e, env)
  | Ok text =>
      match Effects.compile text with
      | None => (Raise Unmodelled, env)
      | Some prog =>
          match Effects.run prog (<["__builtins__" := PyModule "builtins"]> ∅) env with
          | (Ok m, env') => (Py.subscript m "__version__", env')
          | (Raise e, env') => (Raise e, env')
          end
      end
  end.

Definition literal_stmt (a : string * pyval) : Effects.stmt :=
  Effects.SAssign a.1 (Effects.ELit a.2).

(** A version file that sets an environment variable before it binds the
    version. *)
Definition exporting_version_file : string :=
  "import os" +:+ String LF
    ("os.environ['MLSERVER_BUILD'] = '1'" +:+ String LF
       "__version__ = '1.2.3'").

Definition exporting_world : Effects.EWorld :=
  Effects.MkEWorld
    (MkWorld (<["/pkg/mlserver_mlflow/version.py" := exporting_version_file]>
                (<["/pkg/README.md" := "Hello"]> ∅)) ∅ ∅ [])
    ∅.

(** A version file that takes the version from the environment. *)
Definition environment_version_file : string :=
  "import os" +:+ String LF "__version__ = os.environ['MLSERVER_VERSION']".

Definition environment_files : World :=
  MkWorld (<["/pkg/mlserver_mlflow/version.py" := environment_version_file]>
             (<["/pkg/README.md" := "Hello"]> ∅)) ∅ ∅ [].

Definition release_world : Effects.EWorld :=
  Effects.MkEWorld environment_files (<["MLSERVER_VERSION" := "1.2.3"]> ∅).

Definition nightly_world : Effects.EWorld :=
  Effects.MkEWorld environment_files (<["MLSERVER_VERSION" := "1.3.0.dev0"]> ∅).

(** The example root, in a process whose environment holds a variable. *)
Definition example_process : Effects.EWorld :=
  Effects.MkEWorld example_world (<["HOME" := "/root"]> ∅).

Definition dos_version_process : Effects.EWorld :=
  Effects.MkEWorld dos_version_world (<["HOME" := "/root"]> ∅).

Definition busy_process : Effects.EWorld :=
  Effects.MkEWorld busy_world (<["HOME" := "/root"]> ∅).

(** ** String facts *)

Lemma append_nil s : EmptyString +:+ s = s.
Proof. reflexivity. Qed.

Lemma append_cons c a s : String c a +:+ s = String c (a +:+ s).
Proof. reflexivity. Qed.

Lemma append_assoc_s a b c : (a +:+ b) +:+ c = a +:+ (b +:+ c).
Proof.
  induction a as [|x a IH]; [done|].
  by rewrite !append_cons, IH.
Qed.

Lemma existsb_app p a b :
  Str.existsb p (a +:+ b) = Str.existsb p a || Str.existsb p b.
Proof.
  induction a as [|c a IH]; [done|].
  rewrite append_cons. cbn [Str.existsb]. by rewrite IH, orb_assoc.
Qed.

Lemma forallb_app p a b :
  Str.forallb p (a +:+ b) = Str.forallb p a && Str.forallb p b.
Proof.
  induction a as [|c a IH]; [done|].
  rewrite append_cons. cbn [Str.forallb]. by rewrite IH, andb_assoc.
Qed.

Lemma forallb_impl (p q : ascii → bool) s :
  (∀ c, p c = true → q c = true) →
  Str.forallb p s = true → Str.forallb q s = true.
Proof.
  intros Hpq. induction s as [|c s IH]; [done|].
  cbn [Str.forallb]. intros [Hc Hs]%andb_prop.
  by rewrite (Hpq _ Hc), (IH Hs).
Qed.

Lemma forallb_not_existsb (p q : ascii → bool) s :
  (∀ c, p c = true → q c = false) →
  Str.forallb p s = true → Str.existsb q s = false.
Proof.
  intros Hpq. induction s as [|c s IH]; [done|].
  cbn [Str.forallb Str.existsb]. intros [Hc Hs]%andb_prop.
  by rewrite (Hpq _ Hc), (IH Hs).
Qed.

(** ** Universal newlines *)

Lemma universal_newlines_cons_other c s :
  Ascii.eqb c CR = false →
  universal_newlines (String c s) = String c (universal_newlines s).
Proof. intros Hc. cbn [universal_newlines]. by rewrite Hc. Qed.

Lemma universal_newlines_cons2 c d r :
  universal_newlines (String c (String d r)) =
    if Ascii.eqb c CR then
      if Ascii.eqb d LF then String LF (universal_newlines r)
      else String LF (universal_newlines (String d r))
    else String c (universal_newlines (String d r)).
Proof. reflexivity. Qed.

Lemma universal_newlines_no_cr_step s :
  has_cr (universal_newlines s) = false
  ∧ ∀ c, has_cr (universal_newlines (String c s)) = false.
Proof.
  unfold has_cr. induction s as [|d r [IH1 IH2]].
  - split; [done|]. intros c. cbn [universal_newlines].
    destruct (Ascii.eqb c CR) eqn:E; cbn [Str.existsb]; [done|].
    by rewrite Ascii.eqb_sym, E.
  - split; [apply IH2|]. intros c. rewrite universal_newlines_cons2.
    destruct (Ascii.eqb c CR) eqn:E.
    + destruct (Ascii.eqb d LF); cbn [Str.existsb];
        change (Ascii.eqb CR LF) with false; [apply IH1 | apply IH2].
    + cbn [Str.existsb]. by rewrite (Ascii.eqb_sym CR c), E, IH2.
Qed.

(** What a text-mode read returns holds no carriage return. *)
Lemma universal_newlines_no_cr s : has_cr (universal_newlines s) = false.
Proof. apply universal_newlines_no_cr_step. Qed.

(** A text without carriage return is read as it is stored. *)
Lemma universal_newlines_id s :
  has_cr s = false → universal_newlines s = s.
Proof.
  unfold has_cr. induction s as [|c r IH]; [done|].
  cbn [Str.existsb]. intros [Hc Hr]%orb_false_iff.
  rewrite Ascii.eqb_sym in Hc.
  rewrite (universal_newlines_cons_other _ _ Hc). f_equal. apply IH, Hr.
Qed.

Lemma universal_newlines_idemp s :
  universal_newlines (universal_newlines s) = universal_newlines s.
Proof. apply universal_newlines_id, universal_newlines_no_cr. Qed.

Lemma source_chars_universal_newlines_step s :
  (Str.forallb Py.is_source_char (universal_newlines s)
   = Str.forallb Py.is_source_char s)
  ∧ ∀ c, Str.forallb Py.is_source_char (universal_newlines (String c s))
         = Str.forallb Py.is_source_char (String c s).
Proof.
  induction s as [|d r [IH1 IH2]].
  - split; [done|]. intros c. cbn [universal_newlines].
    destruct (Ascii.eqb c CR) eqn:E; [|done].
    apply Ascii.eqb_eq in E as ->. done.
  - split; [apply IH2|]. intros c. rewrite universal_newlines_cons2.
    destruct (Ascii.eqb c CR) eqn:E.
    + apply Ascii.eqb_eq in E as ->.
      destruct (Ascii.eqb d LF) eqn:Ed.
      * apply Ascii.eqb_eq in Ed as ->.
        cbn [Str.forallb]. rewrite IH1. done.
      * cbn [Str.forallb]. rewrite IH2. done.
    + cbn [Str.forallb]. by rewrite IH2.
Qed.

(** The compiler sees the same script whether or not the reader has
    already translated the line ends. *)
Lemma compile_universal_newlines text :
  Py.compile (universal_newlines text) = Py.compile text.
Proof.
  unfold Py.compile.
  rewrite (proj1 (source_chars_universal_newlines_step text)).
  by rewrite universal_newlines_idemp.
Qed.

Lemma exec_universal_newlines text g :
  Py.exec (universal_newlines text) g = Py.exec text g.
Proof. unfold Py.exec. by rewrite compile_universal_newlines. Qed.

(** ** The scoped file handle *)

Lemma fresh_descriptor_unused w :
  open_files w !! fresh (dom (open_files w)) = None.
Proof. apply not_elem_of_dom, is_fresh. Qed.

(** Closing the descriptor that [with_open] allocated gives back the
    descriptor table it started from, whatever was read through it. *)
Lemma close_restores (o : gmap nat string) fp t1 t2 :
  o !! fp = None → delete fp (<[fp := t1]> (<[fp := t2]> o)) = o.
Proof. intros Hfp. by rewrite !delete_insert_eq, delete_id. Qed.

Lemma close_restores_unread (o : gmap nat string) fp t :
  o !! fp = None → delete fp (<[fp := t]> o) = o.
Proof. intros Hfp. by rewrite delete_insert_eq, delete_id. Qed.

Ltac restore_world w :=
  pose proof (fresh_descriptor_unused w);
  destruct w; unfold set_open_files;
  cbn [open_files files unopenable registered] in *;
  repeat f_equal;
  first [by apply close_restores | by apply close_restores_unread].

(** Reading a whole file inside [with open(...)]: the outcome is that of
    opening and decoding, and the process state is as before. *)
Lemma with_open_read path w :
  IO.with_open path IO.read w =
    (read_outcome path (unopenable w !! path) (files w !! path), w).
Proof.
  unfold IO.with_open, IO.read, read_outcome.
  destruct (unopenable w !! path) as [e|]; [done|].
  destruct (files w !! path) as [bytes|]; [|done].
  cbn [open_files set_open_files files registered unopenable].
  rewrite lookup_insert_eq.
  destruct (Str.forallb is_ascii bytes); restore_world w.
Qed.

(** ** The two loaders as functions of the file table *)

Lemma load_version_from_spec f d w :
  _load_version_from f d w =
    (version_outcome (version_path f)
       (unopenable w !! version_path f) (files w !! version_path f), w).
Proof.
  unfold _load_version_from, version_outcome, version_of_text, read_outcome.
  change (Path.join (PKG_PATH f) "version.py") with (version_path f).
  cbv [call with_open_in_body assign_version read_version stmt_of
       mbind F_bind M_bind mret F_ret M_ret lift IO.with_open IO.read].
  destruct (unopenable w !! version_path f) as [e|]; [done|].
  destruct (files w !! version_path f) as [bytes|]; [|done].
  cbn [open_files set_open_files files registered unopenable].
  rewrite lookup_insert_eq.
  destruct (Str.forallb is_ascii bytes); [|restore_world w].
  destruct (Py.exec (universal_newlines bytes) ∅) as [m|e];
    [destruct (Py.subscript m "__version__")|];
    cbn [var_version]; restore_world w.
Qed.

Lemma load_version_spec f w :
  _load_version f w =
    (version_outcome (version_path f)
       (unopenable w !! version_path f) (files w !! version_path f), w).
Proof. apply load_version_from_spec. Qed.

Lemma load_description_spec f w :
  _load_description f w =
    (read_outcome (readme_path f)
       (unopenable w !! readme_path f) (files w !! readme_path f), w).
Proof. apply with_open_read. Qed.

(** ** Characters of the rendered lines *)

Ltac by_cases_on_char c :=
  destruct c as [[] [] [] [] [] [] [] []]; vm_compute; done.

Lemma text_char_ascii c : is_text_char c = true → is_ascii c = true.
Proof. by_cases_on_char c. Qed.

Lemma text_char_not_lf c : is_text_char c = true → Ascii.eqb LF c = false.
Proof. by_cases_on_char c. Qed.

Lemma text_char_not_cr c : is_text_char c = true → Ascii.eqb CR c = false.
Proof. by_cases_on_char c. Qed.

Lemma text_char_source c :
  is_text_char c = true → Py.is_source_char c = true.
Proof. unfold Py.is_source_char. by intros ->. Qed.

Lemma ident_char_text c : is_ident_char c = true → is_text_char c = true.
Proof. by_cases_on_char c. Qed.

Lemma ident_start_not_blank c : is_ident_start c = true → is_blank c = false.
Proof. by_cases_on_char c. Qed.

Lemma ident_start_not_hash c :
  is_ident_start c = true → Ascii.eqb c HASH = false.
Proof. by_cases_on_char c. Qed.

Lemma digit_not_quote c :
  is_digit c = true → Ascii.eqb c DQUOTE || Ascii.eqb c SQUOTE = false.
Proof. by_cases_on_char c. Qed.

Lemma digit_text c : is_digit c = true → is_text_char c = true.
Proof. by_cases_on_char c. Qed.

Lemma digit_not_blank c : is_digit c = true → is_blank c = false.
Proof. by_cases_on_char c. Qed.

Lemma body_char_text q c : body_char q c = true → is_text_char c = true.
Proof. unfold body_char. by intros [[? _]%andb_prop _]%andb_prop. Qed.

Lemma digit_char_spec d :
  (d < 10)%nat →
  is_digit (digit_char d) = true
  ∧ Py.digit_value (digit_char d) = Z.of_nat d
  ∧ Ascii.eqb "0" (digit_char d) = (d =? 0)%nat.
Proof.
  intros Hd. do 10 (destruct d as [|d]; [by vm_compute|]). lia.
Qed.

(** ** Scanning *)

Lemma span_app p a rest :
  Str.forallb p a = true → stops p rest = true →
  Str.span p (a +:+ rest) = (a, rest).
Proof.
  intros Ha Hrest. induction a as [|c a IH].
  - rewrite append_nil. destruct rest as [|d r]; [done|].
    cbn [stops] in Hrest. apply negb_true_iff in Hrest.
    cbn [Str.span]. by rewrite Hrest.
  - cbn [Str.forallb] in Ha. apply andb_prop in Ha as [Hc Ha].
    rewrite append_cons. cbn [Str.span]. by rewrite Hc, (IH Ha).
Qed.

Lemma span_all p a :
  Str.forallb p a = true → Str.span p a = (a, EmptyString).
Proof.
  intros Ha. induction a as [|c a IH]; [done|].
  cbn [Str.forallb] in Ha. apply andb_prop in Ha as [Hc Ha].
  cbn [Str.span]. by rewrite Hc, (IH Ha).
Qed.

Lemma scan_string_body q body rest :
  Str.forallb (body_char q) body = true →
  Py.scan_string (quote_char q) (body +:+ String (quote_char q) rest)
  = Some (body, rest).
Proof.
  induction body as [|c body IH].
  - intros _. rewrite append_nil. cbn [Py.scan_string].
    by rewrite Ascii.eqb_refl.
  - cbn [Str.forallb]. intros [Hc Hbody]%andb_prop.
    rewrite append_cons. cbn [Py.scan_string]. rewrite (IH Hbody).
    unfold body_char in Hc.
    apply andb_prop in Hc as [[Htext Hq%negb_true_iff]%andb_prop
                               Hb%negb_true_iff].
    rewrite Hq, Hb.
    pose proof (text_char_not_lf _ Htext) as Hlf.
    pose proof (text_char_not_cr _ Htext) as Hcr.
    rewrite Ascii.eqb_sym in Hlf. rewrite Ascii.eqb_sym in Hcr.
    by rewrite Hlf, Hcr.
Qed.

(** ** Decimal literals *)

Lemma render_digits_digits ds :
  forallb (λ d, d <? 10)%nat ds = true →
  Str.forallb is_digit (render_digits ds) = true.
Proof.
  induction ds as [|d ds IH]; [done|].
  cbn [forallb render_digits Str.forallb]. intros [Hd Hds]%andb_prop.
  apply Nat.ltb_lt in Hd.
  by rewrite (proj1 (digit_char_spec d Hd)), (IH Hds).
Qed.

Lemma render_digits_length ds : String.length (render_digits ds) = length ds.
Proof. induction ds as [|d ds IH]; [done|]. cbn. by rewrite IH. Qed.

Lemma render_digits_zeros ds :
  forallb (λ d, d <? 10)%nat ds = true →
  Str.forallb (Ascii.eqb "0") (render_digits ds) = forallb (λ d, d =? 0)%nat ds.
Proof.
  induction ds as [|d ds IH]; [done|].
  cbn [forallb render_digits Str.forallb]. intros [Hd Hds]%andb_prop.
  apply Nat.ltb_lt in Hd.
  by rewrite (proj2 (proj2 (digit_char_spec d Hd))), (IH Hds).
Qed.

Lemma decimal_value_render ds acc :
  forallb (λ d, d <? 10)%nat ds = true →
  Py.decimal_value acc (render_digits ds)
  = fold_left (λ a d, 10 * a + Z.of_nat d)%Z ds acc.
Proof.
  revert acc. induction ds as [|d ds IH]; intros acc; [done|].
  cbn [forallb render_digits Py.decimal_value fold_left].
  intros [Hd Hds]%andb_prop. apply Nat.ltb_lt in Hd.
  by rewrite (proj1 (proj2 (digit_char_spec d Hd))), (IH _ Hds).
Qed.

Lemma valid_decimal_render ds :
  wf_digits ds = true → Py.valid_decimal (render_digits ds) = true.
Proof.
  destruct ds as [|d ds]; [done|]. unfold wf_digits, Py.valid_decimal.
  intros [[Hall Hzero]%andb_prop Hlen]%andb_prop.
  rewrite render_digits_length, Hlen, andb_true_r.
  pose proof Hall as Hall'. cbn [forallb] in Hall'.
  apply andb_prop in Hall' as [Hd Hds]. apply Nat.ltb_lt in Hd.
  cbn [render_digits Str.is_empty Str.starts_with negb andb].
  rewrite (proj2 (proj2 (digit_char_spec d Hd))).
  cbn [Str.forallb].
  rewrite (proj2 (proj2 (digit_char_spec d Hd))), (render_digits_zeros _ Hds).
  destruct (d =? 0)%nat; [|done]. by cbn [negb orb andb] in *.
Qed.

Lemma parse_decimal_render ds :
  wf_digits ds = true →
  Py.parse_decimal (render_digits ds) = Some (digits_value ds, EmptyString).
Proof.
  intros Hwf. unfold Py.parse_decimal.
  assert (Hall : forallb (λ d, d <? 10)%nat ds = true).
  { destruct ds as [|d ds]; [done|]. unfold wf_digits in Hwf.
    by apply andb_prop in Hwf as [[? _]%andb_prop _]. }
  rewrite (span_all _ _ (render_digits_digits _ Hall)).
  rewrite (valid_decimal_render _ Hwf).
  by rewrite (decimal_value_render _ _ Hall).
Qed.

(** ** Parsing what was rendered *)

Lemma parse_literal_render l :
  wf_literal l = true →
  Py.parse_literal (render_literal l) = Some (literal_value l, EmptyString).
Proof.
  destruct l as [q body|negative ds| [|] |]; cbn [wf_literal]; intros Hwf.
  - cbn [render_literal Py.parse_literal literal_value].
    rewrite (scan_string_body _ _ _ Hwf). by destruct q.
  - pose proof (parse_decimal_render _ Hwf) as Hdec.
    destruct ds as [|d ds]; [done|].
    assert (Hd : is_digit (digit_char d) = true).
    { unfold wf_digits in Hwf.
      apply andb_prop in Hwf as [[Hall _]%andb_prop _].
      cbn [forallb] in Hall. apply andb_prop in Hall as [Hd _].
      apply Nat.ltb_lt in Hd. apply digit_char_spec, Hd. }
    destruct negative; cbn [render_literal literal_value].
    + change ("-" +:+ render_digits (d :: ds))
        with (String "-" (render_digits (d :: ds))).
      cbn [Py.parse_literal].
      change (Ascii.eqb "-" DQUOTE || Ascii.eqb "-" SQUOTE) with false.
      change (is_digit "-") with false.
      change (Ascii.eqb "-" "-") with true. cbv iota.
      by rewrite Hdec.
    + rewrite append_nil. cbn [render_digits] in *.
      cbn [Py.parse_literal]. rewrite (digit_not_quote _ Hd), Hd.
      by rewrite Hdec.
  - reflexivity.
  - reflexivity.
  - reflexivity.
Qed.

Lemma render_literal_not_blank l :
  wf_literal l = true → Py.skip_blanks (render_literal l) = render_literal l.
Proof.
  destruct l as [q body|negative ds| [|] |]; cbn [wf_literal]; intros Hwf;
    try reflexivity.
  - by destruct q.
  - destruct negative; [reflexivity|].
    destruct ds as [|d ds]; [done|].
    unfold wf_digits in Hwf.
    apply andb_prop in Hwf as [[Hall _]%andb_prop _].
    cbn [forallb] in Hall. apply andb_prop in Hall as [Hd _].
    apply Nat.ltb_lt in Hd.
    cbn [render_literal render_digits]. rewrite append_nil.
    unfold Py.skip_blanks. cbn [Str.drop_while].
    by rewrite (digit_not_blank _ (proj1 (digit_char_spec d Hd))).
Qed.

Lemma parse_line_assign target value :
  wf_target target = true → wf_literal value = true →
  Py.parse_line (render_line (Assign target value))
  = Some (Some (target, literal_value value)).
Proof.
  intros Ht Hv. destruct target as [|c t]; [done|].
  unfold wf_target in Ht.
  apply andb_prop in Ht as [[Hstart Hchars]%andb_prop Hres%negb_true_iff].
  cbn [render_line]. rewrite append_cons. cbn [Py.parse_line].
  rewrite (ident_start_not_blank _ Hstart), (ident_start_not_hash _ Hstart).
  rewrite Hstart. rewrite <- append_cons.
  rewrite (span_app _ _ _ Hchars) by reflexivity.
  rewrite Hres.
  change (Py.skip_blanks (" = " +:+ render_literal value))
    with (String EQUALS (String " " (render_literal value))).
  cbv beta iota. rewrite Ascii.eqb_refl.
  change (Py.skip_blanks (String " " (render_literal value)))
    with (Py.skip_blanks (render_literal value)).
  by rewrite (render_literal_not_blank _ Hv), (parse_literal_render _ Hv).
Qed.

Lemma parse_line_render l :
  wf_line l = true →
  Py.parse_line (render_line l)
  = Some (match l with
          | Assign target value => Some (target, literal_value value)
          | _ => None
          end).
Proof.
  destruct l as [target value|body|]; cbn [wf_line].
  - intros [Ht Hv]%andb_prop. by apply parse_line_assign.
  - reflexivity.
  - reflexivity.
Qed.

Lemma render_digits_text ds :
  forallb (λ d, d <? 10)%nat ds = true →
  Str.forallb is_text_char (render_digits ds) = true.
Proof.
  intros Hall. apply (forallb_impl is_digit); [apply digit_text|].
  by apply render_digits_digits.
Qed.

Lemma render_literal_text l :
  wf_literal l = true → Str.forallb is_text_char (render_literal l) = true.
Proof.
  destruct l as [q body|negative ds| [|] |]; cbn [wf_literal]; intros Hwf;
    try reflexivity.
  - cbn [render_literal Str.forallb]. rewrite forallb_app.
    rewrite (forallb_impl _ _ _ (body_char_text q) Hwf).
    by destruct q.
  - assert (Hall : forallb (λ d, d <? 10)%nat ds = true).
    { destruct ds as [|d ds]; [done|]. unfold wf_digits in Hwf.
      by apply andb_prop in Hwf as [[? _]%andb_prop _]. }
    cbn [render_literal]. rewrite forallb_app, (render_digits_text _ Hall).
    by destruct negative.
Qed.

(** A rendered line consists of characters of a line: it holds neither a
    line end nor a byte outside ASCII. *)
Lemma render_line_text l :
  wf_line l = true → Str.forallb is_text_char (render_line l) = true.
Proof.
  destruct l as [target value|body|]; cbn [wf_line render_line];
    [|cbn [Str.forallb]; by intros ->|done].
  intros [Ht Hv]%andb_prop.
  rewrite !forallb_app, (render_literal_text _ Hv).
  destruct target as [|c t]; [done|]. unfold wf_target in Ht.
  apply andb_prop in Ht as [[_ Hchars]%andb_prop _].
  by rewrite (forallb_impl _ _ _ ident_char_text Hchars).
Qed.

(** ** Compiling a rendered file *)

Lemma text_no_cr a : Str.forallb is_text_char a = true → has_cr a = false.
Proof. apply forallb_not_existsb, text_char_not_cr. Qed.

Lemma text_no_lf a : Str.forallb is_text_char a = true → has_lf a = false.
Proof. apply forallb_not_existsb, text_char_not_lf. Qed.

Lemma unlines_cons n l l' ls :
  unlines n (l :: l' :: ls)
  = render_line l +:+ newline_text n +:+ unlines n (l' :: ls).
Proof. reflexivity. Qed.

Lemma universal_newlines_app_newline n a b :
  has_cr a = false →
  universal_newlines (a +:+ newline_text n +:+ b)
  = a +:+ String LF (universal_newlines b).
Proof.
  unfold has_cr. induction a as [|c r IH].
  - intros _. rewrite !append_nil. destruct n; cbn [newline_text].
    + rewrite append_cons, append_nil.
      by apply universal_newlines_cons_other.
    + rewrite !append_cons, append_nil. by rewrite universal_newlines_cons2.
  - cbn [Str.existsb]. intros [Hc Hr]%orb_false_iff.
    rewrite Ascii.eqb_sym in Hc.
    rewrite !append_cons, (universal_newlines_cons_other _ _ Hc).
    by rewrite (IH Hr).
Qed.

Lemma universal_newlines_unlines n ls :
  forallb wf_line ls = true →
  universal_newlines (unlines n ls) = unlines Unix ls.
Proof.
  induction ls as [|l ls IH]; [done|].
  cbn [forallb]. intros [Hl Hls]%andb_prop.
  pose proof (text_no_cr _ (render_line_text _ Hl)) as Hcr.
  destruct ls as [|l' ls].
  - cbn [unlines]. by apply universal_newlines_id.
  - rewrite !unlines_cons, (universal_newlines_app_newline _ _ _ Hcr).
    by rewrite (IH Hls).
Qed.

Lemma unlines_source n ls :
  forallb wf_line ls = true →
  Str.forallb Py.is_source_char (unlines n ls) = true.
Proof.
  induction ls as [|l ls IH]; [done|].
  cbn [forallb]. intros [Hl Hls]%andb_prop.
  pose proof (forallb_impl _ _ _ text_char_source (render_line_text _ Hl)) as Hsrc.
  destruct ls as [|l' ls]; [done|].
  rewrite unlines_cons, !forallb_app, Hsrc, (IH Hls).
  by destruct n.
Qed.

Lemma unlines_ascii n ls :
  forallb wf_line ls = true →
  Str.forallb is_ascii (unlines n ls) = true.
Proof.
  induction ls as [|l ls IH]; [done|].
  cbn [forallb]. intros [Hl Hls]%andb_prop.
  pose proof (forallb_impl _ _ _ text_char_ascii (render_line_text _ Hl)) as Hasc.
  destruct ls as [|l' ls]; [done|].
  rewrite unlines_cons, !forallb_app, Hasc, (IH Hls).
  by destruct n.
Qed.

Lemma split_lines_no_lf s : has_lf s = false → Py.split_lines s = [s].
Proof.
  unfold has_lf. induction s as [|c r IH]; [done|].
  cbn [Str.existsb Py.split_lines]. intros [Hc Hr]%orb_false_iff.
  rewrite Ascii.eqb_sym in Hc. by rewrite Hc, (IH Hr).
Qed.

Lemma split_lines_nonempty s : Py.split_lines s ≠ [].
Proof.
  destruct s as [|c r]; [done|]. cbn [Py.split_lines].
  destruct (Ascii.eqb c LF); [done|]. by destruct (Py.split_lines r).
Qed.

Lemma split_lines_app a b :
  Py.split_lines (a +:+ String LF b)
  = (Py.split_lines a ++ Py.split_lines b)%list.
Proof.
  induction a as [|c r IH].
  - rewrite append_nil. cbn [Py.split_lines]. by rewrite Ascii.eqb_refl.
  - rewrite append_cons. cbn [Py.split_lines]. rewrite IH.
    destruct (Ascii.eqb c LF); [done|].
    pose proof (split_lines_nonempty r).
    by destruct (Py.split_lines r).
Qed.

Lemma split_lines_unlines l ls :
  forallb wf_line (l :: ls) = true →
  Py.split_lines (unlines Unix (l :: ls)) = render_line <$> (l :: ls).
Proof.
  revert l. induction ls as [|l' ls IH]; intros l;
    cbn [forallb]; intros [Hl Hls]%andb_prop.
  - cbn [unlines]. by rewrite (split_lines_no_lf _ (text_no_lf _ (render_line_text _ Hl))).
  - rewrite unlines_cons. cbn [newline_text].
    rewrite append_cons, append_nil, split_lines_app, (IH _ Hls).
    by rewrite (split_lines_no_lf _ (text_no_lf _ (render_line_text _ Hl))).
Qed.

Lemma parse_lines_render ls :
  forallb wf_line ls = true →
  Py.parse_lines (render_line <$> ls) = Some (bindings ls).
Proof.
  induction ls as [|l ls IH]; [done|].
  cbn [forallb]. intros [Hl Hls]%andb_prop.
  rewrite fmap_cons. cbn [Py.parse_lines].
  rewrite (parse_line_render _ Hl), (IH Hls).
  by destruct l.
Qed.

(** A file rendered from well-formed lines, with either line terminator,
    compiles to the script of its assignments. *)
Lemma compile_unlines n ls :
  forallb wf_line ls = true →
  Py.compile (unlines n ls) = Some (bindings ls).
Proof.
  intros Hwf. unfold Py.compile.
  rewrite (unlines_source _ _ Hwf), (universal_newlines_unlines _ _ Hwf).
  destruct ls as [|l ls]; [done|].
  by rewrite (split_lines_unlines _ _ Hwf), (parse_lines_render _ Hwf).
Qed.

(** ** Facts about the interpreter *)

(** Running a script leaves every name it does not assign as it was. *)
Lemma run_lookup_notin prog g x :
  x ∉ targets prog → Py.run prog g !! x = g !! x.
Proof.
  revert g. induction prog as [|[y v] prog IH]; intros g Hx; [done|].
  unfold targets in *. rewrite fmap_cons in Hx.
  apply not_elem_of_cons in Hx as [Hxy Hx].
  cbn [Py.run]. rewrite (IH _ Hx). by apply lookup_insert_ne.
Qed.

(** The last assignment to a name decides its value. *)
Lemma run_lookup_last prog x v rest g :
  x ∉ targets rest →
  Py.run (prog ++ (x, v) :: rest) g !! x = Some v.
Proof.
  revert g. induction prog as [|[y u] prog IH]; intros g Hx.
  - cbn [app Py.run]. rewrite (run_lookup_notin _ _ _ Hx).
    apply lookup_insert_eq.
  - cbn [app Py.run]. by apply IH.
Qed.

Lemma exec_compiled text prog :
  Py.compile text = Some prog →
  Py.exec text ∅ =
    Ok (Py.run prog (<["__builtins__" := PyModule "builtins"]> ∅)).
Proof. unfold Py.exec. intros ->. by rewrite lookup_empty. Qed.

Lemma bindings_app a b : bindings (a ++ b) = (bindings a ++ bindings b)%list.
Proof.
  induction a as [|l a IH]; [done|].
  destruct l; cbn [app bindings]; by rewrite IH.
Qed.

Lemma unassigned_targets x ls :
  unassigned x ls = true → x ∉ targets (bindings ls).
Proof.
  unfold unassigned, targets. induction ls as [|l ls IH]; cbn [forallb bindings].
  - intros _. apply not_elem_of_nil.
  - intros [Hl Hls]%andb_prop. apply negb_true_iff in Hl.
    destruct l as [target value| |]; [|by apply IH..].
    rewrite fmap_cons. apply not_elem_of_cons. split; [|by apply IH].
    cbn [assigns] in Hl. apply String.eqb_neq in Hl. by intros ->.
Qed.

(** ** The version resolver on a file given by its lines *)

Lemma version_outcome_rendered path n ls :
  forallb wf_line ls = true →
  version_outcome path None (Some (unlines n ls))
  = Py.subscript (Py.run (bindings ls)
                    (<["__builtins__" := PyModule "builtins"]> ∅))
      "__version__".
Proof.
  intros Hwf. unfold version_outcome, read_outcome, version_of_text.
  rewrite (unlines_ascii _ _ Hwf), exec_universal_newlines.
  by rewrite (exec_compiled _ _ (compile_unlines _ _ Hwf)).
Qed.

Lemma load_version_assigned f w n before value after :
  files w !! version_path f
    = Some (unlines n (before ++ Assign "__version__" value :: after)) →
  unopenable w !! version_path f = None →
  forallb wf_line (before ++ Assign "__version__" value :: after) = true →
  unassigned "__version__" after = true →
  _load_version f w = (Ok (literal_value value), w).
Proof.
  intros Hfile Hopen Hwf Hafter.
  rewrite load_version_spec, Hfile, Hopen, (version_outcome_rendered _ _ _ Hwf).
  rewrite bindings_app. cbn [bindings]. unfold Py.subscript.
  by rewrite (run_lookup_last _ _ _ _ _ (unassigned_targets _ _ Hafter)).
Qed.

(** C2. Let the version file under the root consist of well-formed lines
    (assignments of literals, comments, blank lines; Unix or Windows line
    ends) whose last assignment to [__version__] is a string literal with
    body [X].  Then [_load_version] returns exactly [X]: the characters
    between the quotes, nothing trimmed and no case changed. *)
Theorem load_version_exact
    (f : string) (w : World) (n : newline) (before after : list line)
    (q : quote) (X : string) :
  files w !! version_path f
    = Some (unlines n (before ++ Assign "__version__" (LitStr q X) :: after)) →
  unopenable w !! version_path f = None →
  forallb wf_line (before ++ Assign "__version__" (LitStr q X) :: after) = true →
  unassigned "__version__" after = true →
  _load_version f w = (Ok (PyStr X), w).
Proof. apply load_version_assigned. Qed.

Lemma load_version_exact_witness :
  _load_version "/pkg/setup.py" dos_version_world
  = (Ok (PyStr "1.2.3rc1"), dos_version_world).
Proof.
  apply (load_version_exact "/pkg/setup.py" dos_version_world Dos
           [Comment " generated"] [Blank] Single "1.2.3rc1");
    vm_compute; reflexivity.
Defined.

(** C3. Let the version file under the root consist of well-formed lines
    none of which assigns [__version__].  Then [_load_version] raises
    [KeyError] for that key and returns no value. *)
Theorem load_version_missing_binding
    (f : string) (w : World) (n : newline) (ls : list line) :
  files w !! version_path f = Some (unlines n ls) →
  unopenable w !! version_path f = None →
  forallb wf_line ls = true →
  unassigned "__version__" ls = true →
  _load_version f w = (Raise (KeyError "__version__"), w).
Proof.
  intros Hfile Hopen Hwf Hnone.
  rewrite load_version_spec, Hfile, Hopen, (version_outcome_rendered _ _ _ Hwf).
  unfold Py.subscript.
  rewrite (run_lookup_notin _ _ _ (unassigned_targets _ _ Hnone)).
  by rewrite lookup_insert_ne, lookup_empty.
Qed.

Lemma load_version_missing_binding_witness :
  _load_version "/pkg/setup.py" no_version_world
  = (Raise (KeyError "__version__"), no_version_world).
Proof.
  apply (load_version_missing_binding "/pkg/setup.py" no_version_world Unix
           other_names_lines);
    vm_compute; reflexivity.
Defined.

(** C9. [_load_version] validates nothing: when the last assignment to
    [__version__] in a well-formed version file is a literal that is not
    a string (an integer, a truth value, [None]), the value of that
    literal is what the function returns, whatever its annotations
    say. *)
Theorem load_version_unvalidated
    (f : string) (w : World) (n : newline) (before after : list line)
    (value : literal) :
  files w !! version_path f
    = Some (unlines n (before ++ Assign "__version__" value :: after)) →
  unopenable w !! version_path f = None →
  forallb wf_line (before ++ Assign "__version__" value :: after) = true →
  unassigned "__version__" after = true →
  is_str (literal_value value) = false →
  _load_version f w = (Ok (literal_value value), w)
  ∧ ∀ s, literal_value value ≠ PyStr s.
Proof.
  intros Hfile Hopen Hwf Hafter Hstr. split.
  - by apply (load_version_assigned f w n before value after).
  - intros s Hs. by rewrite Hs in Hstr.
Qed.

Lemma load_version_unvalidated_witness :
  _load_version "/pkg/setup.py" int_version_world
  = (Ok (PyInt (-7)), int_version_world).
Proof.
  apply (load_version_unvalidated "/pkg/setup.py" int_version_world Unix
           [] [Blank] (LitInt true [7]%nat));
    vm_compute; reflexivity.
Defined.

Lemma version_outcome_ok path blocked entry v :
  version_outcome path blocked entry = Ok v →
  ∃ bytes, blocked = None ∧ entry = Some bytes ∧ binds_version bytes v.
Proof.
  unfold version_outcome, read_outcome, version_of_text, Py.subscript.
  destruct blocked as [e|]; [done|].
  destruct entry as [bytes|]; [|done].
  destruct (Str.forallb is_ascii bytes); [|done].
  rewrite exec_universal_newlines.
  destruct (Py.exec bytes ∅) as [m|e] eqn:Hexec; [|done].
  destruct (m !! "__version__") as [u|] eqn:Hm; [|done].
  intros [= ->]. exists bytes. repeat split. by exists m.
Qed.

(** C4, as the code has it. When the version file is absent and the
    system does not refuse its path for another reason, [_load_version]
    raises [FileNotFoundError] for that path. *)
Theorem load_version_missing_file (f : string) (w : World) :
  files w !! version_path f = None →
  unopenable w !! version_path f = None →
  _load_version f w = (Raise (FileNotFoundError (version_path f)), w).
Proof. intros Hfile Hopen. by rewrite load_version_spec, Hfile, Hopen. Qed.

Lemma load_version_missing_file_witness :
  _load_version "/pkg/setup.py" empty_world
  = (Raise (FileNotFoundError "/pkg/mlserver_mlflow/version.py"), empty_world).
Proof.
  apply (load_version_missing_file "/pkg/setup.py" empty_world);
    vm_compute; reflexivity.
Defined.

(** C4, as the spec words it, fails: where [mlserver_mlflow] under the
    root is a regular file, there is no version file, and the error is
    [NotADirectoryError], which is not a [FileNotFoundError]. *)
Lemma load_version_absent_not_file_not_found :
  ¬ (∀ (f : string) (w : World),
        files w !! version_path f = None →
        ∃ path, fst (_load_version f w) = Raise (FileNotFoundError path)).
Proof.
  intros H.
  destruct (H "/pkg/setup.py" package_is_file_world) as [path Hpath].
  - vm_compute; reflexivity.
  - vm_compute in Hpath. discriminate Hpath.
Qed.

Example load_version_through_file :
  fst (_load_version "/pkg/setup.py" package_is_file_world)
  = Raise (NotADirectoryError "/pkg/mlserver_mlflow/version.py").
Proof. vm_compute. reflexivity. Qed.

(** C10. Whatever the first assignment stores in the local [version], a
    normal return of [_load_version] yields the entry that executing the
    file's content left under [__version__]; the first value (the empty
    string in the source) never reaches the caller. *)
Theorem load_version_returns_entry
    (f : string) (version0 : pyval) (w : World) (v : pyval) :
  fst (_load_version_from f version0 w) = Ok v →
  (∃ text, files w !! version_path f = Some text ∧ binds_version text v)
  ∧ _load_version_from f version0 w = _load_version f w.
Proof.
  rewrite load_version_from_spec, load_version_spec. cbn [fst].
  intros Hok. split; [|done].
  apply version_outcome_ok in Hok as (bytes & _ & Hentry & Hbinds). eauto.
Qed.

Lemma load_version_returns_entry_witness :
  fst (_load_version_from "/pkg/setup.py" (PyStr "") example_world)
    = Ok (PyStr "1.2.3")
  ∧ (∃ text, files example_world !! version_path "/pkg/setup.py" = Some text
             ∧ binds_version text (PyStr "1.2.3")).
Proof.
  assert (H1 : fst (_load_version_from "/pkg/setup.py" (PyStr "") example_world)
               = Ok (PyStr "1.2.3")) by (vm_compute; reflexivity).
  split; [exact H1|].
  exact (proj1 (load_version_returns_entry "/pkg/setup.py" (PyStr "")
                  example_world (PyStr "1.2.3") H1)).
Defined.

(** ** The description loader *)

(** C5, as the code has it. For a README of ASCII text under a path the
    system opens, [_load_description] returns the text as a text-mode
    read delivers it: every ["\r\n"] and every lone ["\r"] of the stored
    text comes back as ["\n"], nothing else changes.  For a stored text
    without carriage return the result is the stored text itself, line
    feeds and a final line feed (or its absence) included. *)
Theorem load_description_universal_newlines
    (f : string) (w : World) (text : string) :
  files w !! readme_path f = Some text →
  unopenable w !! readme_path f = None →
  Str.forallb is_ascii text = true →
  _load_description f w = (Ok (universal_newlines text), w)
  ∧ (has_cr text = false → _load_description f w = (Ok text, w)).
Proof.
  intros Hfile Hopen Hascii.
  rewrite load_description_spec, Hfile, Hopen. unfold read_outcome.
  rewrite Hascii.
  split; [done|]. intros Hcr. by rewrite (universal_newlines_id _ Hcr).
Qed.

Lemma load_description_universal_newlines_witness :
  _load_description "/pkg/setup.py" crlf_world
  = (Ok ("a" +:+ String LF "b"), crlf_world).
Proof.
  apply (load_description_universal_newlines "/pkg/setup.py" crlf_world
           crlf_readme);
    vm_compute; reflexivity.
Defined.

(** C5, as the spec words it, fails: a README stored with Windows line
    ends is not returned with its original line breaks. *)
Lemma load_description_not_identity :
  ¬ (∀ (f : string) (w : World) (text : string),
        files w !! readme_path f = Some text →
        fst (_load_description f w) = Ok text).
Proof.
  intros H.
  specialize (H "/pkg/setup.py" crlf_world crlf_readme).
  assert (Hfile : files crlf_world !! readme_path "/pkg/setup.py"
                  = Some crlf_readme) by (vm_compute; reflexivity).
  specialize (H Hfile). vm_compute in H. discriminate H.
Qed.

Example load_description_crlf :
  fst (_load_description "/pkg/setup.py" crlf_world)
    = Ok ("a" +:+ String LF "b").
Proof. vm_compute. reflexivity. Qed.

(** ** The declaration *)

Lemma declaration_unfold f fp w :
  declaration f fp w =
    (match version_outcome (version_path f)
             (unopenable w !! version_path f) (files w !! version_path f) with
     | Ok v =>
         match read_outcome (readme_path f)
                 (unopenable w !! readme_path f) (files w !! readme_path f) with
         | Ok text =>
             Ok (SetupKwargs (PKG_NAME) v
                   "https://github.com/SeldonIO/MLServer.git"
                   "Seldon Technologies Ltd." "hello@seldon.io"
                   "MLflow runtime for MLServer"
                   (fp (files w)) ["mlserver"; "mlflow"]
                   text "text/markdown" "Apache 2.0")
         | Raise e => Raise e
         end
     | Raise e => Raise e
     end, w).
Proof.
  unfold declaration, mbind, M_bind, gets, mret, M_ret.
  rewrite load_version_spec.
  destruct (version_outcome _ _ _) as [v|e]; [|done].
  rewrite load_description_spec.
  by destruct (read_outcome _ _ _).
Qed.

(** C6. If [_load_version] or [_load_description] raises, the script ends
    with an exception raised by one of them (the version resolver's when
    it fails, since it runs first), and the build subsystem has received
    no call: the registrations, like the rest of the state, are the ones
    before the run. *)
Theorem setup_py_fail_fast
    (f : string) (fp : gmap string string → list string) (w : World) (e : exn) :
  fst (_load_version f w) = Raise e ∨ fst (_load_description f w) = Raise e →
  ∃ e', setup_py f fp w = (Raise e', w)
        ∧ registered (snd (setup_py f fp w)) = registered w
        ∧ (fst (_load_version f w) = Raise e'
           ∨ (∃ v, fst (_load_version f w) = Ok v)
             ∧ fst (_load_description f w) = Raise e').
Proof.
  rewrite load_version_spec, load_description_spec. cbn [fst].
  unfold setup_py, mbind, M_bind. rewrite declaration_unfold.
  intros [Hv|Hd].
  - rewrite Hv. exists e. cbn [snd]. auto.
  - destruct (version_outcome _ _ _) as [v|ev].
    + rewrite Hd. exists e. cbn [snd]. eauto 6.
    + exists ev. cbn [snd]. auto.
Qed.

Lemma setup_py_fail_fast_witness :
  (fst (_load_version "/pkg/setup.py" no_readme_world)
     = Raise (FileNotFoundError "/pkg/README.md")
   ∨ fst (_load_description "/pkg/setup.py" no_readme_world)
     = Raise (FileNotFoundError "/pkg/README.md"))
  ∧ ∃ e', setup_py "/pkg/setup.py" (λ _, []) no_readme_world
            = (Raise e', no_readme_world).
Proof.
  assert (H1 : fst (_load_version "/pkg/setup.py" no_readme_world)
                 = Raise (FileNotFoundError "/pkg/README.md")
               ∨ fst (_load_description "/pkg/setup.py" no_readme_world)
                 = Raise (FileNotFoundError "/pkg/README.md")).
  { right. vm_compute. reflexivity. }
  split; [exact H1|].
  destruct (setup_py_fail_fast "/pkg/setup.py" (λ _, []) no_readme_world
              _ H1) as (e' & Hrun & _).
  exists e'. exact Hrun.
Defined.

(** C1. For the root [/pkg] whose version file is [__version__ = "1.2.3"]
    and whose README is [Hello], the script makes one call to the build
    subsystem, with version ["1.2.3"], long description ["Hello"],
    dependencies [mlserver] and [mlflow], and name [mlserver-mlflow]. *)
Theorem setup_py_example (fp : gmap string string → list string) :
  ∃ kw,
    setup_py "/pkg/setup.py" fp example_world
      = (Ok tt, set_registered [kw] example_world)
    ∧ version kw = PyStr "1.2.3"
    ∧ long_description kw = "Hello"
    ∧ install_requires kw = ["mlserver"; "mlflow"]
    ∧ name kw = "mlserver-mlflow".
Proof.
  eexists. split.
  - unfold setup_py, mbind, M_bind. rewrite declaration_unfold.
    change (version_path "/pkg/setup.py")
      with "/pkg/mlserver_mlflow/version.py".
    change (readme_path "/pkg/setup.py") with "/pkg/README.md".
    replace (files example_world !! "/pkg/mlserver_mlflow/version.py")
      with (Some (version_line "1.2.3")) by (vm_compute; reflexivity).
    replace (files example_world !! "/pkg/README.md")
      with (Some "Hello") by (vm_compute; reflexivity).
    replace (unopenable example_world !! "/pkg/mlserver_mlflow/version.py")
      with (@None os_error) by (vm_compute; reflexivity).
    replace (unopenable example_world !! "/pkg/README.md")
      with (@None os_error) by (vm_compute; reflexivity).
    replace (version_outcome "/pkg/mlserver_mlflow/version.py" None
               (Some (version_line "1.2.3")))
      with (@Ok pyval (PyStr "1.2.3")) by (vm_compute; reflexivity).
    reflexivity.
  - repeat split; reflexivity.
Qed.

(** * Further properties of the script *)

(** ** Where the script looks for its two files *)

Lemma ends_with_cons c d r :
  r ≠ EmptyString → Str.ends_with c (String d r) = Str.ends_with c r.
Proof. by destruct r. Qed.

Lemma ends_with_app c a b :
  b ≠ EmptyString → Str.ends_with c (a +:+ b) = Str.ends_with c b.
Proof.
  intros Hb. induction a as [|x a IH]; [done|].
  rewrite append_cons, ends_with_cons; [done|].
  destruct a; [by rewrite append_nil | by rewrite append_cons].
Qed.

Lemma through_last_absent c s :
  Str.existsb (Ascii.eqb c) s = false → Str.through_last c s = EmptyString.
Proof. destruct s as [|d r]; [done|]. cbn [Str.through_last]. by intros ->. Qed.

Lemma through_last_app c dir base :
  Str.existsb (Ascii.eqb c) base = false →
  Str.through_last c (dir +:+ String c base) = dir +:+ String c EmptyString.
Proof.
  intros Hbase. induction dir as [|d r IH].
  - rewrite !append_nil. cbn [Str.through_last Str.existsb].
    by rewrite Ascii.eqb_refl, (through_last_absent _ _ Hbase).
  - rewrite !append_cons. cbn [Str.through_last].
    rewrite <- append_cons, existsb_app. cbn [Str.existsb].
    rewrite Ascii.eqb_refl, orb_true_r. cbn [orb].
    by rewrite IH.
Qed.

Lemma rstrip_app_sep c dir :
  dir ≠ EmptyString → Str.ends_with c dir = false →
  Str.rstrip c (dir +:+ String c EmptyString) = dir.
Proof.
  induction dir as [|d r IH]; [done|]. intros _ Hend.
  rewrite append_cons. cbn [Str.rstrip].
  destruct r as [|d' r'].
  - rewrite append_nil. cbn [Str.rstrip Str.ends_with] in *.
    rewrite Ascii.eqb_refl. cbn [andb Str.is_empty].
    rewrite Ascii.eqb_sym in Hend. by rewrite Hend.
  - rewrite ends_with_cons in Hend by done.
    rewrite (IH ltac:(done) Hend). cbn [Str.is_empty].
    by rewrite andb_false_r.
Qed.

Lemma not_all_sep c dir x :
  dir ≠ EmptyString → Str.ends_with c dir = false →
  Str.forallb (Ascii.eqb c) (dir +:+ x) = false.
Proof.
  induction dir as [|d r IH]; [done|]. intros _ Hend.
  rewrite append_cons. cbn [Str.forallb].
  destruct r as [|d' r'].
  - cbn [Str.ends_with] in Hend. by rewrite Hend.
  - rewrite ends_with_cons in Hend by done.
    by rewrite (IH ltac:(done) Hend), andb_false_r.
Qed.

(** [dirname] of [dir/base] is [dir], for a directory part that does not
    itself end with the separator. *)
Lemma dirname_dir_base dir base :
  dir ≠ EmptyString → Str.ends_with SLASH dir = false →
  Str.existsb (Ascii.eqb SLASH) base = false →
  Path.dirname (dir +:+ String SLASH base) = dir.
Proof.
  intros Hne Hend Hbase. unfold Path.dirname.
  rewrite (through_last_app _ _ _ Hbase), (not_all_sep _ _ _ Hne Hend).
  replace (Str.is_empty (dir +:+ String SLASH EmptyString)) with false
    by (by destruct dir).
  cbn [negb andb]. by apply rstrip_app_sep.
Qed.

Lemma dirname_no_sep base :
  Str.existsb (Ascii.eqb SLASH) base = false → Path.dirname base = EmptyString.
Proof.
  intros Hbase. unfold Path.dirname.
  by rewrite (through_last_absent _ _ Hbase).
Qed.

Lemma join_relative_under a b :
  a ≠ EmptyString → Str.ends_with SLASH a = false →
  Str.starts_with SLASH b = false →
  Path.join a b = a +:+ String SLASH b.
Proof.
  intros Ha Hend Hb. unfold Path.join. rewrite Hb, Hend.
  by destruct a.
Qed.

(** X1. When the script is started through a path [dir/base] (the
    directory part not empty and not ending with a slash, the file name
    without slash), the root is [dir]; the version file is looked up at
    [dir/mlserver_mlflow/version.py] and the README at [dir/README.md]. *)
Theorem script_paths_under_dir (dir base : string) :
  dir ≠ EmptyString →
  Str.ends_with SLASH dir = false →
  Str.existsb (Ascii.eqb SLASH) base = false →
  let f := dir +:+ String SLASH base in
  ROOT_PATH f = dir
  ∧ version_path f = dir +:+ "/mlserver_mlflow/version.py"
  ∧ readme_path f = dir +:+ "/README.md".
Proof.
  intros Hne Hend Hbase f.
  assert (Hroot : ROOT_PATH f = dir) by (by apply dirname_dir_base).
  split; [done|]. unfold version_path, readme_path, PKG_PATH.
  rewrite Hroot.
  change (Str.replace "-" "_" PKG_NAME) with "mlserver_mlflow".
  rewrite (join_relative_under dir "mlserver_mlflow") by done.
  rewrite (join_relative_under dir "README.md") by done.
  split; [|done].
  rewrite join_relative_under; [by rewrite append_assoc_s | by destruct dir | | done].
  by rewrite ends_with_app.
Qed.

Lemma script_paths_under_dir_witness :
  "/srv/build/mlflow" ≠ EmptyString
  ∧ Str.ends_with SLASH "/srv/build/mlflow" = false
  ∧ Str.existsb (Ascii.eqb SLASH) "setup.py" = false
  ∧ version_path "/srv/build/mlflow/setup.py"
    = "/srv/build/mlflow/mlserver_mlflow/version.py".
Proof.
  assert (H1 : "/srv/build/mlflow" ≠ EmptyString) by discriminate.
  assert (H2 : Str.ends_with SLASH "/srv/build/mlflow" = false) by reflexivity.
  assert (H3 : Str.existsb (Ascii.eqb SLASH) "setup.py" = false) by reflexivity.
  repeat (split; [assumption|]).
  exact (proj1 (proj2 (script_paths_under_dir "/srv/build/mlflow" "setup.py"
                         H1 H2 H3))).
Defined.

(** X2. When the script is started by its bare file name, the root is the
    empty string and both files are looked up by relative path, that is,
    in the working directory of the process. *)
Theorem script_paths_bare_name (f : string) :
  Str.existsb (Ascii.eqb SLASH) f = false →
  ROOT_PATH f = EmptyString
  ∧ version_path f = "mlserver_mlflow/version.py"
  ∧ readme_path f = "README.md".
Proof.
  intros Hf. assert (Hroot : ROOT_PATH f = EmptyString)
    by (by apply dirname_no_sep).
  unfold version_path, readme_path, PKG_PATH. by rewrite Hroot.
Qed.

Lemma script_paths_bare_name_witness :
  Str.existsb (Ascii.eqb SLASH) "setup.py" = false
  ∧ version_path "setup.py" = "mlserver_mlflow/version.py".
Proof.
  assert (H1 : Str.existsb (Ascii.eqb SLASH) "setup.py" = false) by reflexivity.
  split; [exact H1|].
  exact (proj1 (proj2 (script_paths_bare_name "setup.py" H1))).
Defined.

(** X3. Wherever the script is, the two files are looked up side by side:
    both paths consist of one common prefix, which is the root or the root
    followed by a slash, and the fixed relative names. *)
Theorem script_paths_share_root (f : string) :
  ∃ prefix,
    (prefix = ROOT_PATH f ∨ prefix = ROOT_PATH f +:+ "/")
    ∧ version_path f = prefix +:+ "mlserver_mlflow/version.py"
    ∧ readme_path f = prefix +:+ "README.md".
Proof.
  unfold version_path, readme_path, PKG_PATH.
  change (Str.replace "-" "_" PKG_NAME) with "mlserver_mlflow".
  set (root := ROOT_PATH f).
  assert (Hinner : ∀ x, Path.join (x +:+ "mlserver_mlflow") "version.py"
                        = x +:+ "mlserver_mlflow/version.py").
  { intros x. unfold Path.join. cbn [Str.starts_with].
    change (Ascii.eqb SLASH "v") with false. cbv iota.
    rewrite ends_with_app by done.
    replace (Str.is_empty (x +:+ "mlserver_mlflow")) with false
      by (by destruct x).
    change (Str.ends_with SLASH "mlserver_mlflow") with false.
    cbn [orb]. by rewrite append_assoc_s. }
  unfold Path.join at 2 3. cbn [Str.starts_with].
  change (Ascii.eqb SLASH "m") with false.
  change (Ascii.eqb SLASH "R") with false. cbv iota.
  destruct (Str.is_empty root || Str.ends_with SLASH root).
  - exists root. split; [by left|]. by rewrite Hinner.
  - exists (root +:+ "/"). split; [by right|]. split.
    + change (root +:+ String SLASH "mlserver_mlflow")
        with (root +:+ ("/" +:+ "mlserver_mlflow")).
      by rewrite <- append_assoc_s, Hinner.
    + by rewrite append_assoc_s.
Qed.

(** ** The description loader: state and line ends *)

(** X5. Whatever the README holds, a description that [_load_description]
    returns contains no carriage return, and the call has released its
    handle: the process state is the one before the call. *)
Theorem load_description_no_cr (f : string) (w : World) (d : string) :
  fst (_load_description f w) = Ok d →
  has_cr d = false ∧ snd (_load_description f w) = w.
Proof.
  rewrite load_description_spec. cbn [fst snd]. unfold read_outcome.
  destruct (unopenable w !! readme_path f) as [e|]; [done|].
  destruct (files w !! readme_path f) as [text|]; [|done].
  destruct (Str.forallb is_ascii text); [|done].
  intros [= <-]. split; [apply universal_newlines_no_cr | done].
Qed.

Lemma load_description_no_cr_witness :
  fst (_load_description "/pkg/setup.py" crlf_world)
    = Ok ("a" +:+ String LF "b")
  ∧ has_cr ("a" +:+ String LF "b") = false.
Proof.
  assert (H1 : fst (_load_description "/pkg/setup.py" crlf_world)
               = Ok ("a" +:+ String LF "b")) by (vm_compute; reflexivity).
  split; [exact H1|].
  exact (proj1 (load_description_no_cr "/pkg/setup.py" crlf_world _ H1)).
Defined.

Lemma universal_newlines_nonempty c s :
  universal_newlines (String c s) ≠ EmptyString.
Proof.
  cbn [universal_newlines].
  destruct (Ascii.eqb c CR); [|done].
  destruct s as [|d r]; [done|]. by destruct (Ascii.eqb d LF).
Qed.

Lemma ends_with_line_break_step s :
  (Str.ends_with LF (universal_newlines s)
   = Str.ends_with LF s || Str.ends_with CR s)
  ∧ ∀ c, Str.ends_with LF (universal_newlines (String c s))
         = Str.ends_with LF (String c s) || Str.ends_with CR (String c s).
Proof.
  induction s as [|d r [IH1 IH2]].
  - split; [done|]. intros c. cbn [universal_newlines Str.ends_with].
    destruct (Ascii.eqb c CR) eqn:E.
    + apply Ascii.eqb_eq in E as ->. done.
    + cbn [Str.ends_with]. rewrite (Ascii.eqb_sym CR c), E.
      by rewrite orb_false_r.
  - split; [apply IH2|]. intros c.
    rewrite !(ends_with_cons _ c (String d r)) by done.
    change (universal_newlines (String c (String d r))) with
      (if Ascii.eqb c CR then
         if Ascii.eqb d LF then String LF (universal_newlines r)
         else String LF (universal_newlines (String d r))
       else String c (universal_newlines (String d r))).
    destruct (Ascii.eqb c CR).
    + destruct (Ascii.eqb d LF) eqn:Ed.
      * apply Ascii.eqb_eq in Ed as ->.
        destruct r as [|d' r']; [done|].
        rewrite ends_with_cons by apply universal_newlines_nonempty.
        by rewrite IH1, !(ends_with_cons _ LF (String d' r')).
      * rewrite ends_with_cons by apply universal_newlines_nonempty.
        apply IH2.
    + rewrite ends_with_cons by apply universal_newlines_nonempty.
      apply IH2.
Qed.

(** X6. When [_load_description] returns a text, it ends with a line feed
    exactly when the stored README ends with a line break, be it a line
    feed or a carriage return: a final newline is neither added nor
    dropped. *)
Theorem load_description_final_newline
    (f : string) (w : World) (text d : string) :
  files w !! readme_path f = Some text →
  fst (_load_description f w) = Ok d →
  Str.ends_with LF d = Str.ends_with LF text || Str.ends_with CR text.
Proof.
  intros Hfile. rewrite load_description_spec, Hfile. cbn [fst].
  unfold read_outcome.
  destruct (unopenable w !! readme_path f) as [e|]; [done|].
  destruct (Str.forallb is_ascii text); [|done].
  intros [= <-]. apply ends_with_line_break_step.
Qed.

Lemma load_description_final_newline_witness :
  Str.ends_with LF ("a" +:+ String LF "b")
  = Str.ends_with LF crlf_readme || Str.ends_with CR crlf_readme.
Proof.
  apply (load_description_final_newline "/pkg/setup.py" crlf_world
           crlf_readme ("a" +:+ String LF "b"));
    vm_compute; reflexivity.
Defined.

(** ** The call to the build subsystem *)

(** X12. When [_load_version] returns [v] and [_load_description]
    returns [d], the keyword arguments assembled for [setup] are the
    fixed literals of the script, [v] as version, the discovered packages
    and [d] as long description; assembling them leaves the process
    state as it was. *)
Theorem declaration_assembles
    (f : string) (fp : gmap string string → list string) (w : World)
    (v : pyval) (d : string) :
  fst (_load_version f w) = Ok v →
  fst (_load_description f w) = Ok d →
  declaration f fp w =
    (Ok (SetupKwargs "mlserver-mlflow" v
           "https://github.com/SeldonIO/MLServer.git"
           "Seldon Technologies Ltd." "hello@seldon.io"
           "MLflow runtime for MLServer"
           (fp (files w)) ["mlserver"; "mlflow"]
           d "text/markdown" "Apache 2.0"), w).
Proof.
  rewrite load_version_spec, load_description_spec, declaration_unfold.
  cbn [fst]. by intros -> ->.
Qed.

Lemma declaration_assembles_witness :
  ∃ kw, declaration "/pkg/setup.py" (λ _, ["mlserver_mlflow"]) busy_world
        = (Ok kw, busy_world)
        ∧ license kw = "Apache 2.0" ∧ version kw = PyStr "1.2.3".
Proof.
  eexists. split.
  - apply (declaration_assembles "/pkg/setup.py" _ busy_world
             (PyStr "1.2.3") "Hello"); vm_compute; reflexivity.
  - split; reflexivity.
Defined.

(** X13. A normal end of the script implies that both files were there
    and that the version file bound [__version__]: the single record the
    build subsystem then received carries that bound value and the
    README's text, never a default. *)
Theorem setup_py_ok_inv
    (f : string) (fp : gmap string string → list string) (w : World) :
  fst (setup_py f fp w) = Ok tt →
  ∃ tv v tr kw,
    files w !! version_path f = Some tv
    ∧ binds_version tv v
    ∧ files w !! readme_path f = Some tr
    ∧ registered (snd (setup_py f fp w)) = (registered w ++ [kw])%list
    ∧ version kw = v
    ∧ long_description kw = universal_newlines tr
    ∧ packages kw = fp (files w).
Proof.
  unfold setup_py, mbind, M_bind. rewrite declaration_unfold.
  destruct (version_outcome _ _ _) as [v|e] eqn:Hv; [|done].
  destruct (read_outcome _ _ _) as [d|e] eqn:Hr; [|done].
  intros _. apply version_outcome_ok in Hv as (tv & _ & Htv & Hbinds).
  unfold read_outcome in Hr.
  destruct (unopenable w !! readme_path f); [done|].
  destruct (files w !! readme_path f) as [tr|]; [|done].
  destruct (Str.forallb is_ascii tr); [|done].
  injection Hr as <-.
  exists tv, v, tr. eexists. unfold setup. cbn [snd registered set_registered].
  repeat split; done.
Qed.

Lemma setup_py_ok_inv_witness :
  fst (setup_py "/pkg/setup.py" (λ _, []) example_world) = Ok tt
  ∧ ∃ tv v tr,
      files example_world !! version_path "/pkg/setup.py" = Some tv
      ∧ binds_version tv v
      ∧ files example_world !! readme_path "/pkg/setup.py" = Some tr.
Proof.
  assert (H1 : fst (setup_py "/pkg/setup.py" (λ _, []) example_world) = Ok tt)
    by (vm_compute; reflexivity).
  split; [exact H1|].
  destruct (setup_py_ok_inv "/pkg/setup.py" (λ _, []) example_world H1)
    as (tv & v & tr & kw & Hv & Hb & Hr & _).
  exists tv, v, tr. auto.
Defined.

(** ** Line ends of the version file *)

(** X7. The version does not depend on the line-end convention of the
    version file: the same well-formed lines stored with Unix and with
    Windows line ends make [_load_version] return the same value or raise
    the same exception. *)
Theorem load_version_newline_independent
    (f : string) (w1 w2 : World) (ls : list line) :
  files w1 !! version_path f = Some (unlines Unix ls) →
  files w2 !! version_path f = Some (unlines Dos ls) →
  unopenable w1 !! version_path f = unopenable w2 !! version_path f →
  forallb wf_line ls = true →
  fst (_load_version f w1) = fst (_load_version f w2).
Proof.
  intros H1 H2 Hopen Hwf. rewrite !load_version_spec, H1, H2, Hopen.
  cbn [fst]. destruct (unopenable w2 !! version_path f) as [e|]; [done|].
  by rewrite !(version_outcome_rendered _ _ _ Hwf).
Qed.

Lemma load_version_newline_independent_witness :
  fst (_load_version "/pkg/setup.py" unix_version_world)
  = fst (_load_version "/pkg/setup.py" dos_version_world).
Proof.
  apply (load_version_newline_independent "/pkg/setup.py"
           unix_version_world dos_version_world dos_version_lines);
    vm_compute; reflexivity.
Defined.

(** * The script in a process with an environment *)

(** ** The second embedding extends the first *)

Lemma effects_parse_lines ls prog :
  Py.parse_lines ls = Some prog →
  Effects.parse_lines ls = Some (literal_stmt <$> prog).
Proof.
  revert prog. induction ls as [|l ls IH]; intros prog.
  - cbn [Py.parse_lines Effects.parse_lines]. by intros [= <-].
  - cbn [Py.parse_lines Effects.parse_lines]. unfold Effects.parse_line.
    destruct (Py.parse_line l) as [[[target v]|]|]; [| |done].
    + destruct (Py.parse_lines ls) as [prog'|]; [|done].
      intros [= <-]. by rewrite (IH prog' eq_refl).
    + destruct (Py.parse_lines ls) as [prog'|]; [|done].
      intros [= <-]. by rewrite (IH prog' eq_refl).
Qed.

(** A text the first embedding compiles is compiled to the same
    assignments by the second. *)
Lemma effects_compile text prog :
  Py.compile text = Some prog →
  Effects.compile text = Some (literal_stmt <$> prog).
Proof.
  unfold Py.compile, Effects.compile.
  destruct (Str.forallb Py.is_source_char text); [|done].
  apply effects_parse_lines.
Qed.

(** Literal assignments leave the environment alone. *)
Lemma effects_run_literal prog ns env :
  Effects.run (literal_stmt <$> prog) ns env = (Ok (Py.run prog ns), env).
Proof.
  revert ns. induction prog as [|[target v] prog IH]; intros ns; [done|].
  rewrite fmap_cons. cbn [literal_stmt fst snd Effects.run Py.run].
  apply IH.
Qed.

Lemma effects_load_version_spec f ew :
  Effects._load_version f ew =
    (let '(r, env') :=
       version_run (version_path f)
         (unopenable (Effects.base ew) !! version_path f)
         (files (Effects.base ew) !! version_path f) (Effects.environ ew) in
     (r, Effects.MkEWorld (Effects.base ew) env')).
Proof.
  destruct ew as [w env].
  unfold Effects._load_version, version_run, read_outcome.
  cbn [Effects.base Effects.environ].
  change (Path.join (PKG_PATH f) "version.py") with (version_path f).
  unfold mbind, Effects.ME_bind, mret, Effects.ME_ret, Effects.with_open,
    Effects.lift_base, lift, IO.read, Effects.exec.
  cbn [Effects.base Effects.environ].
  destruct (unopenable w !! version_path f) as [e|]; [done|].
  destruct (files w !! version_path f) as [bytes|]; [|done].
  cbn [open_files set_open_files files registered unopenable
       Effects.base Effects.environ].
  rewrite lookup_insert_eq.
  destruct (Str.forallb is_ascii bytes);
    cbn [Effects.base Effects.environ]; [|f_equal; f_equal; restore_world w].
  rewrite lookup_empty.
  destruct (Effects.compile (universal_newlines bytes)) as [prog|];
    cbn [Effects.base Effects.environ]; [|f_equal; f_equal; restore_world w].
  destruct (Effects.run prog _ env) as [[m|e] env'];
    cbn [Effects.base Effects.environ];
    [destruct (Py.subscript m "__version__")|];
    cbn [Effects.base Effects.environ];
    f_equal; f_equal; restore_world w.
Qed.

Lemma effects_declaration_spec f fp ew :
  Effects.declaration f fp ew =
    (let '(r, env') :=
       version_run (version_path f)
         (unopenable (Effects.base ew) !! version_path f)
         (files (Effects.base ew) !! version_path f) (Effects.environ ew) in
     (match r with
      | Ok v =>
          match read_outcome (readme_path f)
                  (unopenable (Effects.base ew) !! readme_path f)
                  (files (Effects.base ew) !! readme_path f) with
          | Ok text =>
              Ok (SetupKwargs (PKG_NAME) v
                    "https://github.com/SeldonIO/MLServer.git"
                    "Seldon Technologies Ltd." "hello@seldon.io"
                    "MLflow runtime for MLServer"
                    (fp (files (Effects.base ew))) ["mlserver"; "mlflow"]
                    text "text/markdown" "Apache 2.0")
          | Raise e => Raise e
          end
      | Raise e => Raise e
      end, Effects.MkEWorld (Effects.base ew) env')).
Proof.
  unfold Effects.declaration, mbind, Effects.ME_bind, mret, Effects.ME_ret.
  rewrite effects_load_version_spec.
  destruct (version_run _ _ _ _) as [[v|e] env']; [|done].
  unfold Effects._load_description, Effects.lift_base, gets.
  cbn [Effects.base Effects.environ]. rewrite load_description_spec.
  by destruct (read_outcome _ _ _).
Qed.

(** ** Side effects of the version resolver *)

(** C8, as the code has it. For a version file of well-formed lines
    (assignments of literals, comments, blank lines), a call of
    [_load_version] leaves the process state as it found it: the file
    table, the descriptor table (the handle is released), the
    registrations and the environment.  Its result is the one computed
    from the file alone, in a mapping that starts empty. *)
Theorem load_version_no_side_effect
    (f : string) (ew : Effects.EWorld) (n : newline) (ls : list line) :
  files (Effects.base ew) !! version_path f = Some (unlines n ls) →
  forallb wf_line ls = true →
  Effects._load_version f ew = (fst (_load_version f (Effects.base ew)), ew).
Proof.
  intros Hfile Hwf. rewrite effects_load_version_spec, load_version_spec.
  destruct ew as [w env]. cbn [Effects.base Effects.environ fst] in *.
  rewrite Hfile. unfold version_run, version_outcome, read_outcome.
  destruct (unopenable w !! version_path f) as [e|]; [done|].
  rewrite (unlines_ascii _ _ Hwf).
  pose proof (compile_unlines n _ Hwf) as Hc.
  rewrite <- compile_universal_newlines in Hc.
  rewrite (effects_compile _ _ Hc), effects_run_literal.
  unfold version_of_text. by rewrite (exec_compiled _ _ Hc).
Qed.

Lemma load_version_no_side_effect_witness :
  Effects._load_version "/pkg/setup.py" dos_version_process
  = (Ok (PyStr "1.2.3rc1"), dos_version_process).
Proof.
  apply (load_version_no_side_effect "/pkg/setup.py" dos_version_process
           Dos dos_version_lines);
    vm_compute; reflexivity.
Defined.

(** C8, as the spec words it, fails: a version file may hold statements
    with effects, and what they did outlives the call.  Here the file
    exports an environment variable before it binds the version. *)
Lemma load_version_side_effect :
  ¬ (∀ (f : string) (ew : Effects.EWorld),
        snd (Effects._load_version f ew) = ew).
Proof.
  intros H. specialize (H "/pkg/setup.py" exporting_world).
  apply (f_equal (λ ew, Effects.environ ew !! "MLSERVER_BUILD")) in H.
  vm_compute in H. discriminate H.
Qed.

Example load_version_exports :
  fst (Effects._load_version "/pkg/setup.py" exporting_world)
  = Ok (PyStr "1.2.3")
  ∧ Effects.environ (snd (Effects._load_version "/pkg/setup.py" exporting_world))
    !! "MLSERVER_BUILD" = Some "1"
  ∧ Effects.environ exporting_world !! "MLSERVER_BUILD" = None.
Proof. repeat split; vm_compute; reflexivity. Qed.

(** ** Determinism of the declaration *)

(** C7, as the code has it. The assembled record is a function of the
    version file, the README, the discovered packages and the process
    environment: two runs that see the same four produce the same record
    (or the same failure), whatever else differs between the two process
    states.  The statement is about runs that the model follows. *)
Theorem declaration_deterministic
    (f : string) (fp : gmap string string → list string)
    (ew1 ew2 : Effects.EWorld) :
  files (Effects.base ew1) !! version_path f
    = files (Effects.base ew2) !! version_path f →
  unopenable (Effects.base ew1) !! version_path f
    = unopenable (Effects.base ew2) !! version_path f →
  files (Effects.base ew1) !! readme_path f
    = files (Effects.base ew2) !! readme_path f →
  unopenable (Effects.base ew1) !! readme_path f
    = unopenable (Effects.base ew2) !! readme_path f →
  fp (files (Effects.base ew1)) = fp (files (Effects.base ew2)) →
  Effects.environ ew1 = Effects.environ ew2 →
  fst (Effects.declaration f fp ew1) ≠ Raise Unmodelled →
  fst (Effects.declaration f fp ew1) = fst (Effects.declaration f fp ew2).
Proof.
  intros Hv Hvo Hr Hro Hp He _. rewrite !effects_declaration_spec.
  rewrite Hv, Hvo, Hr, Hro, Hp, He.
  by destruct (version_run _ _ _ _) as [[v|e] env'].
Qed.

Lemma declaration_deterministic_witness :
  fst (Effects.declaration "/pkg/setup.py" (λ _, ["mlserver_mlflow"])
         example_process)
  = fst (Effects.declaration "/pkg/setup.py" (λ _, ["mlserver_mlflow"])
           busy_process).
Proof.
  apply (declaration_deterministic "/pkg/setup.py" _
           example_process busy_process);
    try (vm_compute; reflexivity).
  vm_compute. discriminate.
Defined.

(** C7, as the spec words it, fails: on one and the same filesystem, a
    version file that takes the version from the environment gives two
    different records in two processes. *)
Lemma declaration_depends_on_environment :
  ¬ (∀ (f : string) (fp : gmap string string → list string)
        (ew1 ew2 : Effects.EWorld),
        Effects.base ew1 = Effects.base ew2 →
        fst (Effects.declaration f fp ew1) = fst (Effects.declaration f fp ew2)).
Proof.
  intros H.
  specialize (H "/pkg/setup.py" (λ _, []) release_world nightly_world eq_refl).
  vm_compute in H. discriminate H.
Qed.

Example declaration_release :
  version <$> (match fst (Effects.declaration "/pkg/setup.py" (λ _, [])
                            release_world) with
               | Ok kw => Some kw | Raise _ => None end)
  = Some (PyStr "1.2.3").
Proof. vm_compute. reflexivity. Qed.

Example declaration_nightly :
  version <$> (match fst (Effects.declaration "/pkg/setup.py" (λ _, [])
                            nightly_world) with
               | Ok kw => Some kw | Raise _ => None end)
  = Some (PyStr "1.3.0.dev0").
Proof. vm_compute. reflexivity. Qed.
